(** * Yield optimizer: rate adapters, yield comparator, rebalance plan and
      MultiSend batch encoding

    Shallow embedding of
    - [src/contracts/aave.ts]       ([getAaveAPY], [getAaveBalance]),
    - [src/contracts/compound.ts]   ([getCompoundAPY], [getCompoundBalance]),
    - [src/yieldMonitor.ts]         ([compareYields]),
    - [src/triggerx-yield-optimizer.ts]
        ([generatePlaceholderTransaction], [generateRebalanceTransactions],
         the job input of [createYieldOptimizerJob]),
    - [api/monitor.ts]              ([getAaveAPY], [getCompoundAPY], [handler]),
    - [src/checkBalance.ts]
        ([getTokenSymbol], [getTokenDecimals], [getWalletBalances],
         [checkBalances]),
    - the fork-test job script      ([generateTestRebalanceTransactions]),
    - [foundry/script/SafeModuleAaveSupply.s.sol]
        ([_ensureModuleEnabled], [_buildAaveSupplyMultiSend],
         [_executeViaModule]).

    JavaScript numbers are IEEE-754 binary64 values; the two rate
    conversions and the arithmetic of the comparator ([-], [Math.abs], [>],
    [>=]) are embedded with the standard library's [SpecFloat] operations
    at precision 53, so every rounding step of the source expression is
    the one the JavaScript engine performs.  Bigints are integers. *)

From Stdlib Require Import ZArith List Bool Lia String Ascii.
From Stdlib Require Import Strings.Byte DecimalString.
From Stdlib Require Import Floats.SpecFloat.
Import ListNotations.

Open Scope Z_scope.

(* ================================================================== *)
(** ** JavaScript control flow: completions, [try]/[catch], truthiness *)
(* ================================================================== *)

Module JS.

(** The three fields of a thrown [Error] object that the handlers probe
    ([error.code], [error.value], [error.message]); a field that is absent
    ([undefined]) is [None]. *)
Record error := mkError {
  err_code : option string;
  err_value : option string;
  err_message : option string
}.

(** Completion of a block inside a function body: it falls through with a
    value, executes [return r], or throws. *)
Inductive completion (R A : Type) : Type :=
| Normal (a : A)
| ReturnC (r : R)
| ThrowC (e : error).

Arguments Normal {R A} a.
Arguments ReturnC {R A} r.
Arguments ThrowC {R A} e.

(** What the caller of an (awaited) function observes. *)
Inductive outcome (R : Type) : Type :=
| Returned (r : R)
| Thrown (e : error).

Arguments Returned {R} r.
Arguments Thrown {R} e.

Definition bind {R A B} (c : completion R A) (k : A -> completion R B)
  : completion R B :=
  match c with
  | Normal a => k a
  | ReturnC r => ReturnC r
  | ThrowC e => ThrowC e
  end.

(** [await p]: a resolved promise falls through with its value, a rejected
    one throws. *)
Definition await {R A} (p : outcome A) : completion R A :=
  match p with
  | Returned a => Normal a
  | Thrown e => ThrowC e
  end.

(** [try { body } catch (error) { handler }] *)
Definition try_catch {R A} (body : completion R A)
  (handler : error -> completion R A) : completion R A :=
  match body with
  | Normal a => Normal a
  | ReturnC r => ReturnC r
  | ThrowC e => handler e
  end.

(** A function body whose every path ends in [return] or [throw]. *)
Definition run {R} (body : completion R R) : outcome R :=
  match body with
  | Normal r => Returned r
  | ReturnC r => Returned r
  | ThrowC e => Thrown e
  end.

(** [s.includes(needle)] *)
Fixpoint includes (needle s : string) : bool :=
  String.prefix needle s ||
  match s with
  | EmptyString => false
  | String _ rest => includes needle rest
  end.

(** [x === 'lit'] on a possibly-undefined string. *)
Definition opt_is (x : option string) (lit : string) : bool :=
  match x with
  | Some s => String.eqb s lit
  | None => false
  end.

(** Truthiness of a possibly-undefined string: [undefined] and [''] are
    falsy. *)
Definition truthy_str (x : option string) : bool :=
  match x with
  | Some s => negb (String.eqb s "")
  | None => false
  end.

(** Truthiness of a possibly-undefined bigint: [undefined] and [0n] are
    falsy. *)
Definition truthy_big (x : option Z) : bool :=
  match x with
  | Some z => negb (z =? 0)
  | None => false
  end.

(** [a || b] on possibly-undefined strings and bigints. *)
Definition or_str (a b : option string) : option string :=
  if truthy_str a then a else b.

Definition or_big (a b : option Z) : option Z :=
  if truthy_big a then a else b.

(** A decoded contract response, as the adapters probe it: an array
    ([Array.isArray] holds, positional access), a non-array object with
    its own enumerable properties in enumeration order, or
    [null]/[undefined]. *)
Inductive response (A : Type) : Type :=
| RArray (items : list A)
| RObject (fields : list (string * A))
| RNullish.

Arguments RArray {A} items.
Arguments RObject {A} fields.
Arguments RNullish {A}.

Fixpoint lookup {A} (key : string) (fields : list (string * A)) : option A :=
  match fields with
  | [] => None
  | (k, v) :: rest => if String.eqb k key then Some v else lookup key rest
  end.

(** The property name of an array index: its decimal numeral. *)
Definition index_key (i : nat) : string :=
  NilZero.string_of_uint (Nat.to_uint i).

(** [x[i]] on a non-nullish response. *)
Definition index {A} (x : response A) (i : nat) : option A :=
  match x with
  | RArray items => nth_error items i
  | RObject fields => lookup (index_key i) fields
  | RNullish => None
  end.

(** [x.name] on a non-nullish response, for a name that is not an array
    index. *)
Definition field {A} (x : response A) (name : string) : option A :=
  match x with
  | RArray _ => None
  | RObject fields => lookup name fields
  | RNullish => None
  end.

(** [x[Object.keys(x)[0]]] when [Object.keys(x).length > 0]. *)
Definition first_own_property {A} (x : response A) : option A :=
  match x with
  | RArray items => nth_error items 0
  | RObject ((k, v) :: _) => Some v
  | RObject [] => None
  | RNullish => None
  end.

Definition has_keys {A} (x : response A) : bool :=
  match x with
  | RArray items => negb (Nat.eqb (List.length items) 0)
  | RObject fields => negb (Nat.eqb (List.length fields) 0)
  | RNullish => false
  end.

(** [x.length > 0]: the element count of an array; a decoded tuple object
    has no [length] property, and [undefined > 0] is false. *)
Definition length_gt_0 {A} (x : response A) : bool :=
  match x with
  | RArray items => negb (Nat.eqb (List.length items) 0)
  | _ => false
  end.

(** The [TypeError] of reading property [name] of [null]/[undefined]. *)
Definition TypeError_read (name : string) : error :=
  mkError None None
    (Some ("Cannot read properties of undefined (reading '" ++ name ++ "')")%string).

End JS.

Import JS.

Notation "x <- c ;; k" := (JS.bind c (fun x => k))
  (at level 61, c at next level, right associativity).

(* ================================================================== *)
(** ** JavaScript numbers: binary64 arithmetic and [Math.floor]        *)
(* ================================================================== *)

Module Float64.

Definition prec : Z := 53.
Definition emax : Z := 1024.

(** [Number(n)] for a bigint [n], and an integer literal: the nearest
    binary64 value, ties to even. *)
Definition Number (n : Z) : spec_float := binary_normalize prec emax n 0 false.

(** [x / y] and [x * y] on numbers. *)
Definition div (x y : spec_float) : spec_float := SFdiv prec emax x y.
Definition mul (x y : spec_float) : spec_float := SFmul prec emax x y.

(** A number that is the result of [Math.floor]: an integer, [NaN] or an
    infinity. *)
Inductive number : Type :=
| NumInt (z : Z)
| NumNaN
| NumInfinity (negative : bool).

(** [Math.floor(x)]: the greatest integer not above [x]. *)
Definition Math_floor (x : spec_float) : number :=
  match x with
  | S754_zero _ => NumInt 0
  | S754_nan => NumNaN
  | S754_infinity s => NumInfinity s
  | S754_finite s m e =>
      let v := if s then Z.neg m else Z.pos m in
      match e with
      | Z.neg k => NumInt (v / 2 ^ Z.pos k)
      | _ => NumInt (v * 2 ^ e)
      end
  end.

(** The literals [1e27], [1e18], [10000] and [365.25 * 24 * 60 * 60]. *)
Definition lit_1e27 : spec_float := Number (10 ^ 27).
Definition lit_1e18 : spec_float := Number (10 ^ 18).
Definition lit_10000 : spec_float := Number 10000.
Definition lit_365_25 : spec_float := binary_normalize prec emax 1461 (-2) false.
Definition secondsPerYear : spec_float :=
  mul (mul (mul lit_365_25 (Number 24)) (Number 60)) (Number 60).

End Float64.

Import Float64.

(* ================================================================== *)
(** ** Chain reads and configuration                                   *)
(* ================================================================== *)

(** The read-only chain connection ([ethers.Provider] and the contracts
    bound to it): each call names the contract address it is sent to and
    resolves to a decoded response or rejects with an error.  Responses
    carry the element types of the ABI strings of the source: addresses
    are strings, [uint256]/[uint64] values are bigints. *)
Record provider := mkProvider {
  getReserveTokensAddresses : string -> string -> outcome (response string);
  getReserveData : string -> string -> outcome (response Z);
  balanceOf : string -> string -> outcome Z;
  getCode : string -> outcome string;
  getUtilization : string -> outcome Z;
  getSupplyRate : string -> Z -> outcome Z
}.

(** [ethers.ZeroAddress] *)
Definition ZeroAddress : string := "0x0000000000000000000000000000000000000000".

(** [process.env.NAME || 'default'] *)
Definition env_or (v : option string) (default : string) : string :=
  match or_str v (Some default) with
  | Some s => s
  | None => default
  end.

(** [error.code === 'BAD_DATA' || error.value === '0x' ||
     error.message?.includes('could not decode')]: the unsupported-reserve
    condition (an empty or undecodable contract response). *)
Definition is_unsupported_reserve (error : JS.error) : bool :=
  opt_is (err_code error) "BAD_DATA" ||
  opt_is (err_value error) "0x" ||
  match err_message error with
  | Some m => includes "could not decode" m
  | None => false
  end.

Section Adapters.

(** [process.env] *)
Variable env : string -> option string.

(* ------------------------------------------------------------------ *)
(** *** [src/contracts/aave.ts]                                        *)
(* ------------------------------------------------------------------ *)

Definition AAVE_POOL_ADDRESS : string :=
  env_or (env "AAVE_POOL_ADDRESS") "0x6Ae43d3271ff6888e7Fc43Fd7321a503ff738951".

Definition AAVE_DATA_PROVIDER_ADDRESS : string :=
  env_or (env "AAVE_DATA_PROVIDER_ADDRESS") "0x3e9708d80f7B3e43118013075F7e95CE3AB31F31".

Definition AAVE_POOL_ABI : list string :=
  [ "function supply(address asset, uint256 amount, address onBehalfOf, uint16 referralCode)";
    "function withdraw(address asset, uint256 amount, address to) returns (uint256)" ]%string.

Definition ERC20_ABI : list string :=
  [ "function approve(address spender, uint256 amount) returns (bool)";
    "function allowance(address owner, address spender) view returns (uint256)";
    "function balanceOf(address account) view returns (uint256)";
    "function transfer(address to, uint256 amount) returns (bool)";
    "function symbol() view returns (string)";
    "function decimals() view returns (uint8)" ]%string.

(** [Math.floor(Number(liquidityRate) / 1e27 * 10000)] (aave.ts:103) *)
Definition aave_apyBasisPoints (liquidityRate : Z) : number :=
  Math_floor (mul (div (Number liquidityRate) lit_1e27) lit_10000).

(** aave.ts:32-117 *)
Definition getAaveAPY (p : provider) (tokenAddress : string) : outcome number :=
  run (try_catch
    ( _ <- try_catch
             ( reserveTokens <- await (getReserveTokensAddresses p AAVE_DATA_PROVIDER_ADDRESS tokenAddress) ;;
               aTokenAddress <-
                 match reserveTokens with
                 | RArray _ => Normal (index reserveTokens 0)
                 | RObject _ =>
                     Normal (or_str (field reserveTokens "aTokenAddress") (index reserveTokens 0))
                 | RNullish => ThrowC (TypeError_read "aTokenAddress")
                 end ;;
               if negb (truthy_str aTokenAddress) || opt_is aTokenAddress ZeroAddress
               then ReturnC (NumInt 0)
               else Normal tt )
             (fun error =>
                if is_unsupported_reserve error then ReturnC (NumInt 0)
                else ThrowC error) ;;
      reserveData <- try_catch
             (await (getReserveData p AAVE_DATA_PROVIDER_ADDRESS tokenAddress))
             (fun error =>
                if is_unsupported_reserve error then ReturnC (NumInt 0)
                else ThrowC error) ;;
      liquidityRate <-
        match reserveData with
        | RArray _ => Normal (index reserveData 5)
        | RObject _ =>
            Normal (or_big (field reserveData "liquidityRate") (index reserveData 5))
        | RNullish => ThrowC (TypeError_read "liquidityRate")
        end ;;
      match liquidityRate with
      | None => ReturnC (NumInt 0)
      | Some rate =>
          if negb (truthy_big liquidityRate) || (rate =? 0) then ReturnC (NumInt 0)
          else ReturnC (aave_apyBasisPoints rate)
      end )
    (fun error =>
       if is_unsupported_reserve error then ReturnC (NumInt 0)
       else ReturnC (NumInt 0))).

(** aave.ts:119-208.  The [else { return 0n }] arm for a response that is
    neither an array nor an object is unreachable for the three response
    shapes. *)
Definition getAaveBalance (p : provider) (tokenAddress userAddress : string)
  : outcome Z :=
  run (try_catch
    ( reserveTokens <- try_catch
             (await (getReserveTokensAddresses p AAVE_DATA_PROVIDER_ADDRESS tokenAddress))
             (fun error =>
                if is_unsupported_reserve error then ReturnC 0
                else ThrowC error) ;;
      aTokenAddress <-
        match reserveTokens with
        | RNullish => ReturnC 0
        | RArray _ => Normal (index reserveTokens 0)
        | RObject _ =>
            Normal (or_str (field reserveTokens "aTokenAddress")
                      (or_str (index reserveTokens 0)
                         (if length_gt_0 reserveTokens then index reserveTokens 0
                          else None)))
        end ;;
      let aTokenAddress :=
        if negb (truthy_str aTokenAddress) && has_keys reserveTokens
        then first_own_property reserveTokens
        else aTokenAddress in
      match aTokenAddress with
      | None => ReturnC 0
      | Some aToken =>
          if negb (truthy_str aTokenAddress) || String.eqb aToken ZeroAddress
             || String.eqb aToken "0x0000000000000000000000000000000000000000"
          then ReturnC 0
          else
            try_catch
              ( balance <- await (balanceOf p aToken userAddress) ;;
                ReturnC (if negb (balance =? 0) then balance else 0) )
              (fun error =>
                 if is_unsupported_reserve error then ReturnC 0
                 else ThrowC error)
      end )
    (fun error =>
       if is_unsupported_reserve error then ReturnC 0
       else ReturnC 0)).

(* ------------------------------------------------------------------ *)
(** *** [src/contracts/compound.ts]                                    *)
(* ------------------------------------------------------------------ *)

Definition COMPOUND_COMET_ADDRESS : string :=
  env_or (env "COMPOUND_COMET_ADDRESS") "0xAec1F48e02Cfb822Be958B68C7957156EB3F0b6e".

Definition COMPOUND_COMET_ABI : list string :=
  [ "function supply(address asset, uint256 amount)";
    "function withdraw(address asset, uint256 amount)";
    "function balanceOf(address account) view returns (uint256)";
    "function getSupplyRate(uint256 utilization) view returns (uint64)";
    "function getUtilization() view returns (uint256)";
    "function totalSupply() view returns (uint256)";
    "function totalBorrow() view returns (uint256)";
    "function baseToken() view returns (address)";
    "function userBasic(address) view returns (int104 principal, uint64 baseTrackingIndex, uint64 baseTrackingAccrued, uint256 assetsIn, uint256 _reserved)" ]%string.

(** compound.ts:70-73:
    [ratePerSecond = Number(supplyRate) / 1e18],
    [apy = ratePerSecond * secondsPerYear],
    [Math.floor(apy * 10000)]. *)
Definition compound_apyBasisPoints (supplyRate : Z) : number :=
  let ratePerSecond := div (Number supplyRate) lit_1e18 in
  let apy := mul ratePerSecond secondsPerYear in
  Math_floor (mul apy lit_10000).

(** compound.ts:39-80 *)
Definition getCompoundAPY (p : provider) : outcome number :=
  run (try_catch
    ( code <- await (getCode p COMPOUND_COMET_ADDRESS) ;;
      if String.eqb code "0x" then ReturnC (NumInt 0)
      else
        utilization <- try_catch
               (await (getUtilization p COMPOUND_COMET_ADDRESS))
               (fun error => ReturnC (NumInt 0)) ;;
        supplyRate <- await (getSupplyRate p COMPOUND_COMET_ADDRESS utilization) ;;
        ReturnC (compound_apyBasisPoints supplyRate) )
    (fun error => ReturnC (NumInt 0))).

(** compound.ts:88-105 *)
Definition getCompoundBalance (p : provider) (userAddress : string) : outcome Z :=
  run (try_catch
    ( balance <- await (balanceOf p COMPOUND_COMET_ADDRESS userAddress) ;;
      ReturnC balance )
    (fun error => ReturnC 0)).

End Adapters.

(* ================================================================== *)
(** ** [src/yieldMonitor.ts]: the yield comparator                     *)
(* ================================================================== *)

(** The string tags ['aave' | 'compound' | 'equal' | 'none'] of
    [betterProtocol] and [currentProtocol]. *)
Inductive protocol : Type := aave | compound | equal | none.

(** [a === b] and [a !== b] on tags. *)
Definition protocol_eqb (a b : protocol) : bool :=
  match a, b with
  | aave, aave | compound, compound | equal, equal | none, none => true
  | _, _ => false
  end.

Definition protocol_neqb (a b : protocol) : bool := negb (protocol_eqb a b).

(** [x - y], [Math.abs(x)], [x > y] and [x >= y] on numbers; a comparison
    with [NaN] is false. *)
Definition js_minus (x y : spec_float) : spec_float := SFsub prec emax x y.

Definition Math_abs (x : spec_float) : spec_float := SFabs x.

Definition js_gt (x y : spec_float) : bool :=
  match SFcompare x y with
  | Some Gt => true
  | _ => false
  end.

Definition js_ge (x y : spec_float) : bool :=
  match SFcompare x y with
  | Some Gt | Some Eq => true
  | _ => false
  end.

(** The two rates and their difference are numbers. *)
Record YieldComparison := mkYieldComparison {
  timestamp : Z;
  aaveAPY : spec_float;
  compoundAPY : spec_float;
  difference : spec_float;
  betterProtocol : protocol;
  shouldMove : bool;
  currentProtocol : protocol
}.

(** [parseInt(...)] yields a number: an integer, [NaN] or an infinity. *)
Definition threshold : Type := spec_float.

(** yieldMonitor.ts:41-77, the decision computed from the four awaited
    readings, the parsed [MIN_YIELD_DIFFERENCE] and [Date.now()].  The two
    rates are numbers and [-], [Math.abs], [>] and [>=] are the binary64
    operations; the two balances are bigints. *)
Definition compareYields (now : Z) (aaveAPY compoundAPY : spec_float)
  (aaveBalance compoundBalance : Z) (minYieldDifference : threshold)
  : YieldComparison :=
  let currentProtocol :=
    if 0 <? aaveBalance then aave
    else if 0 <? compoundBalance then compound
    else none in
  let difference := Math_abs (js_minus aaveAPY compoundAPY) in
  let betterProtocol :=
    if js_gt aaveAPY compoundAPY then aave
    else if js_gt compoundAPY aaveAPY then compound
    else equal in
  let shouldMove :=
    js_ge difference minYieldDifference &&
    protocol_neqb betterProtocol equal &&
    protocol_neqb currentProtocol none &&
    protocol_neqb currentProtocol betterProtocol in
  {| timestamp := now;
     aaveAPY := aaveAPY;
     compoundAPY := compoundAPY;
     difference := difference;
     betterProtocol := betterProtocol;
     shouldMove := shouldMove;
     currentProtocol := currentProtocol |}.

(* ================================================================== *)
(** ** [src/triggerx-yield-optimizer.ts]: the rebalance plan           *)
(* ================================================================== *)

(** An argument handed to [encodeFunctionData]: an address string or an
    unsigned integer (the source passes the decimal string of a bigint,
    which the encoder reads back as that integer). *)
Inductive abi_arg : Type :=
| ArgAddress (a : string)
| ArgUint (n : Z).

(** [new ethers.Interface(abi).encodeFunctionData(name, args)], kept
    symbolic: the interface, the function name and the argument list
    determine the call data. *)
Record calldata := encodeFunctionData {
  call_abi : list string;
  call_name : string;
  call_args : list abi_arg
}.

(** [{ to: string; value: string; data: string }] *)
Record transaction := mkTransaction {
  to : string;
  value : string;
  data : calldata
}.

Record YieldOptimizerConfig := mkConfig {
  safeAddress : string;
  tokenAddress : string;
  minYieldDifference : Z;
  checkInterval : Z;
  jobDuration : Z;
  monitorApiUrl : string
}.

Section Optimizer.

Variable env : string -> option string.

(** triggerx-yield-optimizer.ts:55-74 *)
Definition generatePlaceholderTransaction (safeAddress : string)
  : list transaction :=
  let SAFE_ABI := [ "function nonce() view returns (uint256)"%string ] in
  let data := encodeFunctionData SAFE_ABI "nonce" [] in
  [ {| to := safeAddress; value := "0"; data := data |} ].

(** triggerx-yield-optimizer.ts:87-183: the plan built from the decision
    [yieldData] and the two balances read again at lines 102-103. *)
Definition rebalancePlan (yieldData : YieldComparison)
  (aaveBalance compoundBalance : Z) (config : YieldOptimizerConfig)
  : list transaction :=
  if negb (shouldMove yieldData) then []
  else
    let transactions : list transaction := [] in
    let amountToMove :=
      if protocol_eqb (currentProtocol yieldData) aave then aaveBalance
      else compoundBalance in
    if amountToMove =? 0 then []
    else
      (* Step 1: withdraw from the current protocol *)
      let transactions :=
        if protocol_eqb (currentProtocol yieldData) aave then
          transactions ++
          [ {| to := AAVE_POOL_ADDRESS env;
               value := "0";
               data := encodeFunctionData AAVE_POOL_ABI "withdraw"
                         [ ArgAddress (tokenAddress config);
                           ArgUint amountToMove;
                           ArgAddress (safeAddress config) ] |} ]
        else if protocol_eqb (currentProtocol yieldData) compound then
          transactions ++
          [ {| to := COMPOUND_COMET_ADDRESS env;
               value := "0";
               data := encodeFunctionData COMPOUND_COMET_ABI "withdraw"
                         [ ArgAddress (tokenAddress config);
                           ArgUint amountToMove ] |} ]
        else transactions in
      (* Step 2: approve the new protocol *)
      let approveAddress :=
        if protocol_eqb (betterProtocol yieldData) aave then AAVE_POOL_ADDRESS env
        else COMPOUND_COMET_ADDRESS env in
      let transactions :=
        transactions ++
        [ {| to := tokenAddress config;
             value := "0";
             data := encodeFunctionData ERC20_ABI "approve"
                       [ ArgAddress approveAddress;
                         ArgUint amountToMove ] |} ] in
      (* Step 3: deposit to the better protocol *)
      let transactions :=
        if protocol_eqb (betterProtocol yieldData) aave then
          transactions ++
          [ {| to := AAVE_POOL_ADDRESS env;
               value := "0";
               data := encodeFunctionData AAVE_POOL_ABI "supply"
                         [ ArgAddress (tokenAddress config);
                           ArgUint amountToMove;
                           ArgAddress (safeAddress config);
                           ArgUint 0 ] |} ]
        else if protocol_eqb (betterProtocol yieldData) compound then
          transactions ++
          [ {| to := COMPOUND_COMET_ADDRESS env;
               value := "0";
               data := encodeFunctionData COMPOUND_COMET_ABI "supply"
                         [ ArgAddress (tokenAddress config);
                           ArgUint amountToMove ] |} ]
        else transactions in
      transactions.

(** triggerx-yield-optimizer.ts:79-184: [yieldData] is the decision
    [compareYields] returns for the readings of its own cycle; the balances
    are then read a second time. *)
Definition generateRebalanceTransactions
  (now : Z) (aaveAPY compoundAPY : spec_float)
  (positionAave positionCompound : Z)
  (minYield : threshold)
  (aaveBalance compoundBalance : Z) (config : YieldOptimizerConfig)
  : list transaction :=
  let yieldData :=
    compareYields now aaveAPY compoundAPY positionAave positionCompound minYield in
  rebalancePlan yieldData aaveBalance compoundBalance config.

End Optimizer.

(* ================================================================== *)
(** ** [foundry/script/SafeModuleAaveSupply.s.sol]: MultiSend encoding *)
(* ================================================================== *)

Module MultiSend.

Definition bytes : Type := list byte.

(** The byte holding the low eight bits of [z]. *)
Definition byte_of_Z (z : Z) : byte :=
  match Byte.of_N (Z.to_N (z mod 256)) with
  | Some b => b
  | None => x00
  end.

Definition Z_of_byte (b : byte) : Z := Z.of_N (Byte.to_N b).

(** The [n] low-order bytes of [v], most significant first: the
    representation of a [uint(8n)] or of an [address] ([n = 20]). *)
Fixpoint be_bytes (n : nat) (v : Z) : bytes :=
  match n with
  | O => []
  | S k => byte_of_Z (v / 256 ^ Z.of_nat k) :: be_bytes k v
  end.

(** The unsigned integer a big-endian byte string denotes. *)
Definition be_value (bs : bytes) : Z :=
  fold_left (fun acc b => acc * 256 + Z_of_byte b) bs 0.

(** Solidity values of the types the script encodes. *)
Inductive sol_value : Type :=
| Uint8 (v : Z)
| Uint16 (v : Z)
| Uint256 (v : Z)
| Address (a : Z)
| Bytes (b : bytes).

(** [abi.encodePacked(...)]: every value in its own width, no padding. *)
Definition packed (v : sol_value) : bytes :=
  match v with
  | Uint8 v => be_bytes 1 v
  | Uint16 v => be_bytes 2 v
  | Uint256 v => be_bytes 32 v
  | Address a => be_bytes 20 a
  | Bytes b => b
  end.

Definition abi_encodePacked (vs : list sol_value) : bytes :=
  List.concat (map packed vs).

(** [abi.encode(...)]: one 32-byte head word per value; a [bytes] value
    puts its offset in the head and its length, content and zero padding to
    a multiple of 32 in the tail. *)
Definition zero_padding (len : nat) : bytes :=
  repeat x00 (Nat.modulo (32 - Nat.modulo len 32) 32).

Definition abi_tail (v : sol_value) : bytes :=
  match v with
  | Bytes b => be_bytes 32 (Z.of_nat (List.length b)) ++ b ++ zero_padding (List.length b)
  | _ => []
  end.

Fixpoint abi_heads (vs : list sol_value) (offset : nat) : bytes :=
  match vs with
  | [] => []
  | v :: rest =>
      match v with
      | Uint8 x | Uint16 x | Uint256 x | Address x => be_bytes 32 x
      | Bytes _ => be_bytes 32 (Z.of_nat offset)
      end ++ abi_heads rest (offset + List.length (abi_tail v))
  end.

Definition abi_encode (vs : list sol_value) : bytes :=
  abi_heads vs (32 * List.length vs) ++ List.concat (map abi_tail vs).

(** [abi.encodeWithSelector(selector, ...)] *)
Definition abi_encodeWithSelector (selector : bytes) (vs : list sol_value) : bytes :=
  selector ++ abi_encode vs.

(** Script constants (lines 40-69). *)
Definition SAFE_MODULE_ADDRESS : Z := 0x100656372C821539651f5905Ca39b7C95f9AA433.
Definition MULTISEND_CALL_ONLY : Z := 0x9641d764fc13c8B624c04430C7356C1C7C8102e2.
Definition AAVE_POOL_ADDRESS : Z := 0x794a61358D6845594F94dc1DB02A252b5b4814aD.
Definition USDC_ADDRESS : Z := 0xaf88d065e77c8cC2239327C5EDb3A432268e5831.
Definition SUPPLY_AMOUNT : Z := 100 * 10 ^ 6.
Definition CALL : Z := 0.
Definition DELEGATECALL : Z := 1.

Section Script.

(** The four-byte selectors [IERC20.approve.selector],
    [IAavePool.supply.selector] and [IMultiSendCallOnly.multiSend.selector],
    and the Safe address the script reads from its environment. *)
Variables approve_selector supply_selector multiSend_selector : bytes.
Variable SAFE_WALLET_ADDRESS : Z.

(** Lines 187-191. *)
Definition approveData : bytes :=
  abi_encodeWithSelector approve_selector
    [ Address AAVE_POOL_ADDRESS; Uint256 SUPPLY_AMOUNT ].

(** Lines 194-200. *)
Definition supplyData : bytes :=
  abi_encodeWithSelector supply_selector
    [ Address USDC_ADDRESS; Uint256 SUPPLY_AMOUNT; Address SAFE_WALLET_ADDRESS;
      Uint16 0 ].

(** Lines 206-212. *)
Definition tx1 : bytes :=
  abi_encodePacked
    [ Uint8 CALL; Address USDC_ADDRESS; Uint256 0;
      Uint256 (Z.of_nat (List.length approveData)); Bytes approveData ].

(** Lines 214-220. *)
Definition tx2 : bytes :=
  abi_encodePacked
    [ Uint8 CALL; Address AAVE_POOL_ADDRESS; Uint256 0;
      Uint256 (Z.of_nat (List.length supplyData)); Bytes supplyData ].

(** Line 222. *)
Definition transactions : bytes := abi_encodePacked [ Bytes tx1; Bytes tx2 ].

(** Lines 183-237: the call data handed to [_executeViaModule]. *)
Definition _buildAaveSupplyMultiSend : bytes :=
  abi_encodeWithSelector multiSend_selector [ Bytes transactions ].

(** The arguments of [execTransactionFromModule] at lines 270-275. *)
Record moduleTransaction := mkModuleTransaction {
  mt_to : Z;
  mt_value : Z;
  mt_data : bytes;
  mt_operation : Z
}.

Definition _executeViaModule (multiSendCalldata : bytes) : moduleTransaction :=
  {| mt_to := MULTISEND_CALL_ONLY;
     mt_value := 0;
     mt_data := multiSendCalldata;
     mt_operation := DELEGATECALL |}.

End Script.

(** A call of a batch: [{ target, value, payload }]. *)
Record Call := mkCall {
  target : Z;
  value : Z;
  payload : bytes
}.

(** Modelled from the spec: the encoder of a call list of any length is
    missing from the sources, which only build the two-call batch above.
    Each call is packed the way [tx1] and [tx2] are, and the packed calls
    are appended in order the way [transactions] is. *)
Definition encodeCall (c : Call) : bytes :=
  abi_encodePacked
    [ Uint8 CALL; Address (target c); Uint256 (value c);
      Uint256 (Z.of_nat (List.length (payload c))); Bytes (payload c) ].

Definition encodeBatch (calls : list Call) : bytes :=
  fold_left (fun acc c => abi_encodePacked [ Bytes acc; Bytes (encodeCall c) ])
    calls [].

(** Modelled from the spec: the wrapping of a packed batch as the single
    [bytes] argument of the batch executor's [multiSend]. *)
Definition wrapBatch (multiSend_selector : bytes) (packedBatch : bytes) : bytes :=
  abi_encodeWithSelector multiSend_selector [ Bytes packedBatch ].

(** The two calls the script batches. *)
Definition approveCall (approve_selector : bytes) : Call :=
  {| target := USDC_ADDRESS; value := 0; payload := approveData approve_selector |}.

Definition supplyCall (supply_selector : bytes) (SAFE_WALLET_ADDRESS : Z) : Call :=
  {| target := AAVE_POOL_ADDRESS; value := 0;
     payload := supplyData supply_selector SAFE_WALLET_ADDRESS |}.

(** Modelled from the spec: the matching parser of a packed batch is
    missing from the sources (the batch executor is an external contract).
    It reads, call after call, the tag (which must be the direct-call tag),
    the 20-byte target, the 32-byte value, the 32-byte payload length and
    that many payload bytes, and fails on a truncated input. *)
Fixpoint decodeCalls (fuel : nat) (bs : bytes) : option (list Call) :=
  match bs with
  | [] => Some []
  | tag :: rest =>
      match fuel with
      | O => None
      | S fuel' =>
          if (Z_of_byte tag =? CALL) && (84 <=? List.length rest)%nat then
            let len := Z.to_nat (be_value (firstn 32 (skipn 52 rest))) in
            let body := skipn 84 rest in
            if (len <=? List.length body)%nat then
              match decodeCalls fuel' (skipn len body) with
              | Some calls =>
                  Some ({| target := be_value (firstn 20 rest);
                           value := be_value (firstn 32 (skipn 20 rest));
                           payload := firstn len body |} :: calls)
              | None => None
              end
            else None
          else None
      end
  end.

(** Every call takes at least one byte, so the length of the input is
    fuel enough. *)
Definition decodeBatch (bs : bytes) : option (list Call) :=
  decodeCalls (List.length bs) bs.

(** Range of the fields of a call: a 160-bit target, a [uint256] value and
    a payload whose length fits a [uint256]. *)
Definition wf_call (c : Call) : Prop :=
  0 <= target c < 2 ^ 160 /\
  0 <= value c < 2 ^ 256 /\
  Z.of_nat (List.length (payload c)) < 2 ^ 256.

End MultiSend.

(* ================================================================== *)
(** ** Numbers returned by the adapters, errors, set variables         *)
(* ================================================================== *)

(** The number a [Math.floor] result or the literal [0] denotes. *)
Definition to_float (n : number) : spec_float :=
  match n with
  | NumInt z => Number z
  | NumNaN => S754_nan
  | NumInfinity s => S754_infinity s
  end.

(** [new Error(message)] *)
Definition new_Error (message : string) : JS.error :=
  mkError None None (Some message).

(** The value of an environment variable known to be set. *)
Definition env_get (v : option string) : string :=
  match v with
  | Some s => s
  | None => ""
  end.

(* ================================================================== *)
(** ** [src/yieldMonitor.ts]: the comparator with its reads            *)
(* ================================================================== *)

Section YieldMonitor.

Variable env : string -> option string.

(** The builtin [parseInt]. *)
Variable parseInt : string -> spec_float.

(** yieldMonitor.ts:18-78, the async function [compareYields] with its
    reads.  [p] is the connection opened on [RPC_URL]; the four reads of
    [Promise.all] are awaited in the order of the array. *)
Definition compareYields_async (p : provider) (now : Z) : outcome YieldComparison :=
  run (
    if negb (truthy_str (env "RPC_URL")) ||
       negb (truthy_str (env "TOKEN_ADDRESS")) ||
       negb (truthy_str (env "SAFE_WALLET_ADDRESS"))
    then ThrowC (new_Error "Missing required environment variables")
    else
      let tokenAddress := env_get (env "TOKEN_ADDRESS") in
      let safeAddress := env_get (env "SAFE_WALLET_ADDRESS") in
      let minYieldDifference :=
        parseInt (env_or (env "MIN_YIELD_DIFFERENCE") "50") in
      aaveAPY <- await (getAaveAPY env p tokenAddress) ;;
      compoundAPY <- await (getCompoundAPY env p) ;;
      aaveBalance <- await (getAaveBalance env p tokenAddress safeAddress) ;;
      compoundBalance <- await (getCompoundBalance env p safeAddress) ;;
      ReturnC (compareYields now (to_float aaveAPY) (to_float compoundAPY)
                 aaveBalance compoundBalance minYieldDifference)).

End YieldMonitor.

(* ================================================================== *)
(** ** [api/monitor.ts]: the yield monitor endpoint                    *)
(* ================================================================== *)

Module Monitor.

(** The [metadata] of the response. *)
Record Metadata := mkMetadata {
  aaveAPY : spec_float;
  compoundAPY : spec_float;
  difference : spec_float;
  betterProtocol : protocol;
  timestamp : Z;
  network : string
}.

Record YieldData := mkYieldData {
  value : spec_float;
  metadata : Metadata
}.

(** What the handler sends: [end()], a JSON error object, or the yield
    data. *)
Inductive body : Type :=
| NoBody
| ErrorBody (error : string) (message : option string)
| DataBody (data : YieldData).

Record httpResponse := mkResponse {
  status : Z;
  headers : list (string * string);
  sent : body
}.

Section Api.

Variable env : string -> option string.

Definition AAVE_DATA_PROVIDER : string :=
  env_or (env "AAVE_DATA_PROVIDER_ADDRESS") "0x69FA688f1Dc47d4B5d8029D5a35FB7a548310654".

Definition COMPOUND_COMET : string :=
  env_or (env "COMPOUND_COMET_ADDRESS") "0x9c4ec768c28520B50860ea7a15bd7213a9fF58bf".

Definition USDC_ADDRESS : string :=
  env_or (env "TOKEN_ADDRESS") "0xaf88d065e77c8cC2239327C5EDb3A432268e5831".

(** monitor.ts:42-64 *)
Definition getAaveAPY (p : provider) : outcome number :=
  run (try_catch
    ( reserveData <- await (getReserveData p AAVE_DATA_PROVIDER USDC_ADDRESS) ;;
      liquidityRate <-
        match reserveData with
        | RArray _ => Normal (index reserveData 5)
        | RObject _ => Normal (field reserveData "liquidityRate")
        | RNullish => ThrowC (TypeError_read "liquidityRate")
        end ;;
      match liquidityRate with
      | None => ReturnC (NumInt 0)
      | Some rate =>
          if negb (truthy_big liquidityRate) || (rate =? 0) then ReturnC (NumInt 0)
          else ReturnC (aave_apyBasisPoints rate)
      end )
    (fun error => ReturnC (NumInt 0))).

(** monitor.ts:69-91 *)
Definition getCompoundAPY (p : provider) : outcome number :=
  run (try_catch
    ( utilization <- await (getUtilization p COMPOUND_COMET) ;;
      supplyRate <- await (getSupplyRate p COMPOUND_COMET utilization) ;;
      ReturnC (compound_apyBasisPoints supplyRate) )
    (fun error => ReturnC (NumInt 0))).

Definition cors_headers : list (string * string) :=
  [ ("Access-Control-Allow-Origin", "*");
    ("Access-Control-Allow-Methods", "GET, OPTIONS");
    ("Access-Control-Allow-Headers", "Content-Type") ]%string.

(** monitor.ts:96-146.  [method] is [req.method]; [p] is the connection
    opened on [RPC_URL] or the default endpoint. *)
Definition handler (method : string) (p : provider) (now : Z)
  : outcome httpResponse :=
  run (
    if String.eqb method "OPTIONS" then
      ReturnC {| status := 200; headers := cors_headers; sent := NoBody |}
    else if negb (String.eqb method "GET") then
      ReturnC {| status := 405; headers := cors_headers;
                 sent := ErrorBody "Method not allowed" None |}
    else
      try_catch
        ( aaveAPY <- await (getAaveAPY p) ;;
          compoundAPY <- await (getCompoundAPY p) ;;
          let aaveAPY := to_float aaveAPY in
          let compoundAPY := to_float compoundAPY in
          let difference := Math_abs (js_minus aaveAPY compoundAPY) in
          let betterProtocol :=
            if js_gt aaveAPY compoundAPY then aave else compound in
          ReturnC
            {| status := 200; headers := cors_headers;
               sent := DataBody
                 {| value := difference;
                    metadata :=
                      {| aaveAPY := aaveAPY;
                         compoundAPY := compoundAPY;
                         difference := difference;
                         betterProtocol := betterProtocol;
                         timestamp := now;
                         network := "arbitrum" |} |} |} )
        (fun error =>
           ReturnC
             {| status := 500; headers := cors_headers;
                sent := ErrorBody "Failed to fetch yield data"
                          (err_message error) |})).

End Api.

End Monitor.


(* ================================================================== *)
(** ** [src/triggerx-yield-optimizer.ts]: the job input                *)
(* ================================================================== *)

Module Job.

(** [ArgType.Static] and [ArgType.Dynamic] of the SDK. *)
Inductive ArgType : Type := Static | Dynamic.

(** The [jobInput] object handed to [createJob]; a property that is not
    set is [None]. *)
Record JobInput := mkJobInput {
  jobType : string;
  conditionType : string;
  upperLimit : Z;
  lowerLimit : Z;
  argType : ArgType;
  jobTitle : string;
  timeFrame : Z;
  valueSourceType : string;
  valueSourceUrl : string;
  timezone : string;
  chainId : string;
  walletMode : string;
  safeAddress : string;
  autotopupTG : bool;
  safeTransactions : option (list transaction);
  dynamicArgumentsScriptUrl : option string
}.

Section Build.

Variable env : string -> option string.

(** triggerx-yield-optimizer.ts:242-331.  [rebalanceTransactions] is what
    [generateRebalanceTransactions] returned and [sufficientEth] is the
    test [walletBalanceEth >= 0.01]. *)
Definition buildJobInput (config : YieldOptimizerConfig)
  (rebalanceTransactions : list transaction) (sufficientEth : bool)
  : JobInput :=
  let '(mkConfig configSafeAddress _ configMinYieldDifference _
          configJobDuration configMonitorApiUrl) := config in
  let hasTransactions := negb (Nat.eqb (List.length rebalanceTransactions) 0) in
  let dynamicScriptUrl := env "DYNAMIC_TRANSACTIONS_SCRIPT_URL" in
  let shouldAutotopup :=
    negb (opt_is (env "AUTOTOPUP_TG") "false") && sufficientEth in
  let jobInput :=
    {| jobType := "Condition";
       conditionType := "greater_than";
       upperLimit := configMinYieldDifference;
       lowerLimit := 0;
       argType :=
         if hasTransactions && negb (truthy_str dynamicScriptUrl) then Static
         else Dynamic;
       jobTitle := "Yield Optimizer - Aave ↔ Compound";
       timeFrame := configJobDuration;
       valueSourceType := "api";
       valueSourceUrl := configMonitorApiUrl;
       timezone := env_or (env "TIMEZONE") "UTC";
       chainId := env_or (env "CHAIN_ID") "42161";
       walletMode := "safe";
       safeAddress := configSafeAddress;
       autotopupTG := shouldAutotopup;
       safeTransactions := None;
       dynamicArgumentsScriptUrl := None |} in
  let set_static (j : JobInput) (txs : list transaction) : JobInput :=
    {| jobType := jobType j; conditionType := conditionType j;
       upperLimit := upperLimit j; lowerLimit := lowerLimit j;
       argType := Static;
       jobTitle := jobTitle j; timeFrame := timeFrame j;
       valueSourceType := valueSourceType j; valueSourceUrl := valueSourceUrl j;
       timezone := timezone j; chainId := chainId j; walletMode := walletMode j;
       safeAddress := safeAddress j; autotopupTG := autotopupTG j;
       safeTransactions := Some txs;
       dynamicArgumentsScriptUrl := dynamicArgumentsScriptUrl j |} in
  let set_dynamic (j : JobInput) (url : string) : JobInput :=
    {| jobType := jobType j; conditionType := conditionType j;
       upperLimit := upperLimit j; lowerLimit := lowerLimit j;
       argType := Dynamic;
       jobTitle := jobTitle j; timeFrame := timeFrame j;
       valueSourceType := valueSourceType j; valueSourceUrl := valueSourceUrl j;
       timezone := timezone j; chainId := chainId j; walletMode := walletMode j;
       safeAddress := safeAddress j; autotopupTG := autotopupTG j;
       safeTransactions := safeTransactions j;
       dynamicArgumentsScriptUrl := Some url |} in
  if hasTransactions && negb (truthy_str dynamicScriptUrl) then
    set_static jobInput rebalanceTransactions
  else if truthy_str dynamicScriptUrl &&
          String.prefix "http" (env_get dynamicScriptUrl) then
    let isPublicUrl :=
      negb (includes "localhost" (env_get dynamicScriptUrl)) &&
      negb (includes "127.0.0.1" (env_get dynamicScriptUrl)) in
    if isPublicUrl then set_dynamic jobInput (env_get dynamicScriptUrl)
    else set_static jobInput (generatePlaceholderTransaction configSafeAddress)
  else set_static jobInput (generatePlaceholderTransaction configSafeAddress).

End Build.

End Job.

(* ================================================================== *)
(** ** The fork-test job script                                        *)
(* ================================================================== *)

Module ForkTest.

Section Fork.

Variable env : string -> option string.

(** Lines 58-149 of the script: the plan built from the decision
    [yieldData] and the two balances read at lines 69-70. *)
Definition testRebalancePlan (yieldData : YieldComparison)
  (aaveBalance compoundBalance : Z) (safeAddress tokenAddress : string)
  : list transaction :=
  if negb (shouldMove yieldData) then []
  else
    let transactions : list transaction := [] in
    let amountToMove :=
      if protocol_eqb (currentProtocol yieldData) aave then aaveBalance
      else compoundBalance in
    if amountToMove =? 0 then []
    else
      let transactions :=
        if protocol_eqb (currentProtocol yieldData) aave then
          transactions ++
          [ {| to := AAVE_POOL_ADDRESS env;
               value := "0";
               data := encodeFunctionData AAVE_POOL_ABI "withdraw"
                         [ ArgAddress tokenAddress;
                           ArgUint amountToMove;
                           ArgAddress safeAddress ] |} ]
        else if protocol_eqb (currentProtocol yieldData) compound then
          transactions ++
          [ {| to := COMPOUND_COMET_ADDRESS env;
               value := "0";
               data := encodeFunctionData COMPOUND_COMET_ABI "withdraw"
                         [ ArgAddress tokenAddress;
                           ArgUint amountToMove ] |} ]
        else transactions in
      let approveAddress :=
        if protocol_eqb (betterProtocol yieldData) aave then AAVE_POOL_ADDRESS env
        else COMPOUND_COMET_ADDRESS env in
      let transactions :=
        transactions ++
        [ {| to := tokenAddress;
             value := "0";
             data := encodeFunctionData ERC20_ABI "approve"
                       [ ArgAddress approveAddress;
                         ArgUint amountToMove ] |} ] in
      let transactions :=
        if protocol_eqb (betterProtocol yieldData) aave then
          transactions ++
          [ {| to := AAVE_POOL_ADDRESS env;
               value := "0";
               data := encodeFunctionData AAVE_POOL_ABI "supply"
                         [ ArgAddress tokenAddress;
                           ArgUint amountToMove;
                           ArgAddress safeAddress;
                           ArgUint 0 ] |} ]
        else if protocol_eqb (betterProtocol yieldData) compound then
          transactions ++
          [ {| to := COMPOUND_COMET_ADDRESS env;
               value := "0";
               data := encodeFunctionData COMPOUND_COMET_ABI "supply"
                         [ ArgAddress tokenAddress;
                           ArgUint amountToMove ] |} ]
        else transactions in
      transactions.

(** Lines 42-150: the decision is the one [compareYields] returns. *)
Definition generateTestRebalanceTransactions
  (now : Z) (aaveAPY compoundAPY : spec_float)
  (positionAave positionCompound : Z) (minYield : threshold)
  (aaveBalance compoundBalance : Z) (safeAddress tokenAddress : string)
  : list transaction :=
  let yieldData :=
    compareYields now aaveAPY compoundAPY positionAave positionCompound minYield in
  testRebalancePlan yieldData aaveBalance compoundBalance safeAddress tokenAddress.

(** Line 235: [rebalanceTransactions.length > 0 ? rebalanceTransactions :
    undefined], the [safeTransactions] property of the fork job. *)
Definition forkSafeTransactions (rebalanceTransactions : list transaction)
  : option (list transaction) :=
  if negb (Nat.eqb (List.length rebalanceTransactions) 0)
  then Some rebalanceTransactions
  else None.

End Fork.

End ForkTest.

(* ================================================================== *)
(** ** [src/checkBalance.ts]                                           *)
(* ================================================================== *)

Module CheckBalance.

(** The further reads of the balance checker: the native balance of an
    address and the [symbol()] and [decimals()] of a token contract. *)
Record walletReads := mkWalletReads {
  getBalance : string -> outcome Z;
  symbol : string -> outcome string;
  decimals : string -> outcome Z
}.

Record WalletBalances := mkWalletBalances {
  ethBalance : Z;
  ethBalanceFormatted : string;
  tokenInWallet : Z;
  tokenInWalletFormatted : string;
  tokenInAave : Z;
  tokenInAaveFormatted : string;
  tokenInCompound : Z;
  tokenInCompoundFormatted : string;
  totalTokenBalance : Z;
  totalTokenBalanceFormatted : string
}.

Record BalanceReport := mkBalanceReport {
  eoaAddress : string;
  safeAddress : string;
  tokenAddress : string;
  tokenSymbol : string;
  eoaBalances : WalletBalances;
  safeBalances : WalletBalances;
  timestamp : Z
}.

Section Check.

Variable env : string -> option string.

(** [ethers.formatUnits(value, decimals)] and the address of
    [new ethers.Wallet(privateKey)], which throws on a malformed key. *)
Variable formatUnits : Z -> Z -> string.
Variable walletAddress : string -> outcome string.

(** [ethers.formatEther(value)] *)
Definition formatEther (v : Z) : string := formatUnits v 18.

(** checkBalance.ts:42-56 *)
Definition getTokenSymbol (r : walletReads) (tokenAddress : string)
  : outcome string :=
  run (try_catch
    ( s <- await (symbol r tokenAddress) ;;
      ReturnC s )
    (fun error => ReturnC "TOKEN"%string)).

(** checkBalance.ts:61-76 *)
Definition getTokenDecimals (r : walletReads) (tokenAddress : string)
  : outcome Z :=
  run (try_catch
    ( d <- await (decimals r tokenAddress) ;;
      ReturnC d )
    (fun error => ReturnC 6)).

(** checkBalance.ts:81-115 *)
Definition getWalletBalances (p : provider) (r : walletReads)
  (address tokenAddress : string) (tokenDecimals : Z)
  : outcome WalletBalances :=
  run (
    ethBalance <- await (getBalance r address) ;;
    tokenInWallet <- await (balanceOf p tokenAddress address) ;;
    tokenInAave <- await (getAaveBalance env p tokenAddress address) ;;
    tokenInCompound <- await (getCompoundBalance env p address) ;;
    let totalTokenBalance := tokenInWallet + tokenInAave + tokenInCompound in
    ReturnC
      {| ethBalance := ethBalance;
         ethBalanceFormatted := formatEther ethBalance;
         tokenInWallet := tokenInWallet;
         tokenInWalletFormatted := formatUnits tokenInWallet tokenDecimals;
         tokenInAave := tokenInAave;
         tokenInAaveFormatted := formatUnits tokenInAave tokenDecimals;
         tokenInCompound := tokenInCompound;
         tokenInCompoundFormatted := formatUnits tokenInCompound tokenDecimals;
         totalTokenBalance := totalTokenBalance;
         totalTokenBalanceFormatted := formatUnits totalTokenBalance tokenDecimals |}).

(** checkBalance.ts:120-164.  The reads of each [Promise.all] are awaited
    in the order of its array. *)
Definition checkBalances (p : provider) (r : walletReads) (now : Z)
  : outcome BalanceReport :=
  run (
    if negb (truthy_str (env "RPC_URL")) then
      ThrowC (new_Error "RPC_URL not configured in .env")
    else if negb (truthy_str (env "PRIVATE_KEY")) then
      ThrowC (new_Error "PRIVATE_KEY not configured in .env")
    else if negb (truthy_str (env "SAFE_WALLET_ADDRESS")) then
      ThrowC (new_Error "SAFE_WALLET_ADDRESS not configured in .env")
    else if negb (truthy_str (env "TOKEN_ADDRESS")) then
      ThrowC (new_Error "TOKEN_ADDRESS not configured in .env")
    else
      eoaAddress <- await (walletAddress (env_get (env "PRIVATE_KEY"))) ;;
      let safeAddress := env_get (env "SAFE_WALLET_ADDRESS") in
      let tokenAddress := env_get (env "TOKEN_ADDRESS") in
      tokenSymbol <- await (getTokenSymbol r tokenAddress) ;;
      tokenDecimals <- await (getTokenDecimals r tokenAddress) ;;
      eoaBalances <-
        await (getWalletBalances p r eoaAddress tokenAddress tokenDecimals) ;;
      safeBalances <-
        await (getWalletBalances p r safeAddress tokenAddress tokenDecimals) ;;
      ReturnC
        {| eoaAddress := eoaAddress;
           safeAddress := safeAddress;
           tokenAddress := tokenAddress;
           tokenSymbol := tokenSymbol;
           eoaBalances := eoaBalances;
           safeBalances := safeBalances;
           timestamp := now |}).

End Check.

End CheckBalance.

(* ================================================================== *)
(** ** [SafeModuleAaveSupply.s.sol]: enabling the module               *)
(* ================================================================== *)

Module SafeScript.

Section Safe.

(** The chain state and the two functions of the Safe the script calls:
    [isModuleEnabled(module)] on the Safe at an address, and
    [enableModule(module)] sent by the Safe itself, which changes the state
    or reverts ([None]). *)
Variable State : Type.
Variable isModuleEnabled : State -> Z -> Z -> bool.
Variable enableModule : State -> Z -> Z -> option State.

(** Lines 149-170: the state the script goes on with, or [None] when the
    call or the [require] reverts. *)
Definition _ensureModuleEnabled (SAFE_WALLET_ADDRESS : Z) (s : State)
  : option State :=
  let isEnabled :=
    isModuleEnabled s SAFE_WALLET_ADDRESS MultiSend.SAFE_MODULE_ADDRESS in
  if negb isEnabled then
    match enableModule s SAFE_WALLET_ADDRESS MultiSend.SAFE_MODULE_ADDRESS with
    | None => None
    | Some s' =>
        let isEnabled :=
          isModuleEnabled s' SAFE_WALLET_ADDRESS MultiSend.SAFE_MODULE_ADDRESS in
        if isEnabled then Some s' else None
    end
  else Some s.

End Safe.

End SafeScript.

(* ================================================================== *)
(** ** Inputs used in the examples                                     *)
(* ================================================================== *)

(** An environment with no variable set: every address is its default. *)
Definition empty_env : string -> option string := fun _ => None.

(** A transient transport failure: not an unsupported-reserve condition. *)
Definition network_error : JS.error :=
  mkError (Some "NETWORK_ERROR"%string) None (Some "network timeout"%string).

(** A chain on which the reserve is listed and the contracts are deployed,
    but every rate and balance read fails with [network_error]. *)
Definition failing_provider : provider :=
  {| getReserveTokensAddresses := fun _ _ =>
       Returned (RArray [ "0x724dc807b04555b71ed48a6896b6F41593b8C637"%string ]);
     getReserveData := fun _ _ => Thrown network_error;
     balanceOf := fun _ _ => Thrown network_error;
     getCode := fun _ => Returned "0x6080"%string;
     getUtilization := fun _ => Returned 800000000000000000;
     getSupplyRate := fun _ _ => Thrown network_error |}.

Definition sample_config : YieldOptimizerConfig :=
  {| safeAddress := "0xb7dfd7c6102ed050928d3ac87145c2f69d944e04";
     tokenAddress := "0xaf88d065e77c8cC2239327C5EDb3A432268e5831";
     minYieldDifference := 50;
     checkInterval := 60;
     jobDuration := 300;
     monitorApiUrl := "https://example.org/api/monitor" |}.

(** A chain on which the reserve is listed with the given liquidity rate
    and the Comet market quotes the given supply rate. *)
Definition rate_provider (liquidityRate supplyRate : Z) : provider :=
  {| getReserveTokensAddresses := fun _ _ =>
       Returned (RArray [ "0x724dc807b04555b71ed48a6896b6F41593b8C637"%string ]);
     getReserveData := fun _ _ =>
       Returned (RArray [ 0; 0; 0; 0; 0; liquidityRate; 0; 0; 0; 0; 0; 0 ]);
     balanceOf := fun _ _ => Returned 0;
     getCode := fun _ => Returned "0x6080"%string;
     getUtilization := fun _ => Returned 800000000000000000;
     getSupplyRate := fun _ _ => Returned supplyRate |}.

(** The two calls of the script's batch, for two four-byte selectors and
    the Safe address of the script's header comment. *)
Definition sample_calls : list MultiSend.Call :=
  [ MultiSend.approveCall [x09; x5e; xa7; xb3];
    MultiSend.supplyCall [x61; x7b; xa0; x37]
      0xb7dfd7c6102ed050928d3ac87145c2f69d944e04 ].





(** The number [x] is exactly the integer [z]. *)
Definition number_is (x : spec_float) (z : Z) : bool :=
  match x with
  | S754_zero _ => z =? 0
  | S754_finite s m e =>
      let v := if s then Z.neg m else Z.pos m in
      match e with
      | Z.neg k => v =? z * 2 ^ Z.pos k
      | _ => v * 2 ^ e =? z
      end
  | _ => false
  end.

(** [v] followed by [k] zero bits, and the normal form of an integer of
    magnitude [v] below 2^53. *)
Definition pos_shiftl (v : positive) (k : Z) : positive :=
  match k with
  | Z.pos j => Pos.iter xO v j
  | _ => v
  end.

Definition canon (s : bool) (v : positive) : spec_float :=
  S754_finite s (pos_shiftl v (53 - Z.pos (digits2_pos v)))
    (Z.pos (digits2_pos v) - 53).

(** The rate [getAaveAPY] returns for the liquidity rate 2^256 - 1: a
    multiple of 2^127, so a number. *)
Definition rate_of_max_liquidity : Z :=
  1157920892373162078563403528954682864641374539019714560.

(** An environment that sets the three variables [compareYields] requires
    and the four [checkBalances] requires. *)
Definition configured_env : string -> option string :=
  fun name =>
    if String.eqb name "RPC_URL" then Some "https://arb1.arbitrum.io/rpc"%string
    else if String.eqb name "TOKEN_ADDRESS"
      then Some "0xaf88d065e77c8cC2239327C5EDb3A432268e5831"%string
    else if String.eqb name "SAFE_WALLET_ADDRESS"
      then Some "0xb7dfd7c6102ed050928d3ac87145c2f69d944e04"%string
    else if String.eqb name "PRIVATE_KEY" then Some "0x01"%string
    else None.

(** A chain on which every read fails with [network_error]. *)
Definition outage_provider : provider :=
  {| getReserveTokensAddresses := fun _ _ => Thrown network_error;
     getReserveData := fun _ _ => Thrown network_error;
     balanceOf := fun _ _ => Thrown network_error;
     getCode := fun _ => Thrown network_error;
     getUtilization := fun _ => Thrown network_error;
     getSupplyRate := fun _ _ => Thrown network_error |}.

(** A chain on which the asset is not listed on Aave (zero receipt token)
    and no contract is deployed at the Comet address, while the rate reads
    would answer. *)
Definition unlisted_provider : provider :=
  {| getReserveTokensAddresses := fun _ _ =>
       Returned (RArray [ ZeroAddress; ZeroAddress; ZeroAddress ]);
     getReserveData := fun _ _ =>
       Returned (RArray [ 0; 0; 0; 0; 0; 23000000000000000000000000;
                          0; 0; 0; 0; 0; 0 ]);
     balanceOf := fun _ _ => Returned 5;
     getCode := fun _ => Returned "0x"%string;
     getUtilization := fun _ => Returned 800000000000000000;
     getSupplyRate := fun _ _ => Returned 1000000000 |}.

(** A chain holding the given receipt-token and Comet balances. *)
Definition balance_provider (balance : Z) : provider :=
  {| getReserveTokensAddresses := fun _ _ =>
       Returned (RArray [ "0x724dc807b04555b71ed48a6896b6F41593b8C637"%string ]);
     getReserveData := fun _ _ => Thrown network_error;
     balanceOf := fun _ _ => Returned balance;
     getCode := fun _ => Returned "0x6080"%string;
     getUtilization := fun _ => Thrown network_error;
     getSupplyRate := fun _ _ => Thrown network_error |}.

(** An environment that gives the monitor endpoint and the decision
    adapters the same three addresses. *)
Definition shared_env : string -> option string :=
  fun name =>
    if String.eqb name "AAVE_DATA_PROVIDER_ADDRESS"
      then Some "0x69FA688f1Dc47d4B5d8029D5a35FB7a548310654"%string
    else if String.eqb name "COMPOUND_COMET_ADDRESS"
      then Some "0x9c4ec768c28520B50860ea7a15bd7213a9fF58bf"%string
    else if String.eqb name "TOKEN_ADDRESS"
      then Some "0xaf88d065e77c8cC2239327C5EDb3A432268e5831"%string
    else None.

(** An environment that names a public script for dynamic arguments. *)
Definition dynamic_env : string -> option string :=
  fun name =>
    if String.eqb name "DYNAMIC_TRANSACTIONS_SCRIPT_URL"
      then Some "https://example.org/rebalance.js"%string
    else None.

(** Wallet reads that answer for every address, for a token without
    [symbol()] and [decimals()]. *)
Definition sample_walletReads : CheckBalance.walletReads :=
  {| CheckBalance.getBalance := fun _ => Returned 20000000000000000;
     CheckBalance.symbol := fun _ => Thrown network_error;
     CheckBalance.decimals := fun _ => Thrown network_error |}.

(** A Safe whose state is the list of its enabled modules. *)
Definition sample_isModuleEnabled (s : list Z) (safe module : Z) : bool :=
  existsb (Z.eqb module) s.

Definition sample_enableModule (s : list Z) (safe module : Z) : option (list Z) :=
  Some (module :: s).

(** Swapping the labels A and B on a tag. *)
Definition swap_protocol (p : protocol) : protocol :=
  match p with
  | aave => compound
  | compound => aave
  | other => other
  end.

(** Case analysis on the innermost [match] or [if] of an adapter body,
    until none is left. *)
Ltac adapter_cases :=
  repeat (simpl;
    match goal with
    | |- context [match ?x with _ => _ end] =>
        lazymatch x with
        | context [match _ with _ => _ end] => fail
        | _ => destruct x eqn:?
        end
    end);
  simpl; eauto.

Arguments aave_apyBasisPoints : simpl never.
Arguments compound_apyBasisPoints : simpl never.

(* ================================================================== *)
(** ** Failure policy of the adapters                                  *)
(* ================================================================== *)

Example index_key_5 : index_key 5 = "5"%string.
Proof. reflexivity. Qed.

Example undecodable_response_is_unsupported :
  is_unsupported_reserve
    (mkError (Some "BAD_DATA"%string) (Some "0x"%string)
       (Some "could not decode result data"%string)) = true /\
  is_unsupported_reserve
    (mkError None None (Some "call revert: could not decode result data"%string))
    = true /\
  is_unsupported_reserve network_error = false /\
  is_unsupported_reserve (TypeError_read "aTokenAddress") = false.
Proof. repeat split. Qed.

Lemma getAaveAPY_returns (env : string -> option string) (p : provider) (token : string) :
  exists r, getAaveAPY env p token = Returned r.
Proof. unfold getAaveAPY, await, try_catch, bind, run. adapter_cases. Qed.

Lemma getAaveAPY_tokens_error env p token e :
  getReserveTokensAddresses p (AAVE_DATA_PROVIDER_ADDRESS env) token = Thrown e ->
  getAaveAPY env p token = Returned (NumInt 0).
Proof.
  intro H. unfold getAaveAPY, await, try_catch, bind, run. rewrite H.
  adapter_cases.
Qed.

Lemma getAaveAPY_data_error env p token e :
  getReserveData p (AAVE_DATA_PROVIDER_ADDRESS env) token = Thrown e ->
  getAaveAPY env p token = Returned (NumInt 0).
Proof.
  intro H. unfold getAaveAPY, await, try_catch, bind, run. rewrite H.
  adapter_cases.
Qed.

Lemma getCompoundAPY_returns (env : string -> option string) (p : provider) :
  exists r, getCompoundAPY env p = Returned r.
Proof. unfold getCompoundAPY, await, try_catch, bind, run. adapter_cases. Qed.

Lemma getCompoundAPY_code_error env p e :
  getCode p (COMPOUND_COMET_ADDRESS env) = Thrown e ->
  getCompoundAPY env p = Returned (NumInt 0).
Proof.
  intro H. unfold getCompoundAPY, await, try_catch, bind, run. rewrite H.
  reflexivity.
Qed.

Lemma getCompoundAPY_utilization_error env p e :
  getUtilization p (COMPOUND_COMET_ADDRESS env) = Thrown e ->
  getCompoundAPY env p = Returned (NumInt 0).
Proof.
  intro H. unfold getCompoundAPY, await, try_catch, bind, run. rewrite H.
  adapter_cases.
Qed.

Lemma getCompoundAPY_rate_error env p u e :
  getUtilization p (COMPOUND_COMET_ADDRESS env) = Returned u ->
  getSupplyRate p (COMPOUND_COMET_ADDRESS env) u = Thrown e ->
  getCompoundAPY env p = Returned (NumInt 0).
Proof.
  intros Hu H. unfold getCompoundAPY, await, try_catch, bind, run.
  rewrite Hu. simpl. rewrite H. adapter_cases.
Qed.

Lemma getAaveBalance_returns env p token user :
  exists r, getAaveBalance env p token user = Returned r.
Proof. unfold getAaveBalance, await, try_catch, bind, run. adapter_cases. Qed.

Lemma getAaveBalance_tokens_error env p token user e :
  getReserveTokensAddresses p (AAVE_DATA_PROVIDER_ADDRESS env) token = Thrown e ->
  getAaveBalance env p token user = Returned 0.
Proof.
  intro H. unfold getAaveBalance, await, try_catch, bind, run. rewrite H.
  adapter_cases.
Qed.

(** Whatever receipt token the registry names, a failing [balanceOf] on
    every token contract gives the balance [0n]. *)
Lemma getAaveBalance_balance_error env p token user :
  (forall aToken, exists e, balanceOf p aToken user = Thrown e) ->
  getAaveBalance env p token user = Returned 0.
Proof.
  intro H. unfold getAaveBalance, await, try_catch, bind, run.
  repeat (simpl;
    match goal with
    | |- context [balanceOf p ?a user] =>
        let e := fresh "e" in
        let He := fresh "He" in
        destruct (H a) as [e He]; rewrite He
    | |- context [match ?x with _ => _ end] =>
        lazymatch x with
        | context [match _ with _ => _ end] => fail
        | _ => destruct x eqn:?
        end
    end); simpl; reflexivity.
Qed.

(** The registry lists a receipt token and the balance read on it fails. *)
Lemma getAaveBalance_listed_balance_error env p token user aToken others e :
  getReserveTokensAddresses p (AAVE_DATA_PROVIDER_ADDRESS env) token
    = Returned (RArray (aToken :: others)) ->
  balanceOf p aToken user = Thrown e ->
  getAaveBalance env p token user = Returned 0.
Proof.
  intros Htok Hbal. unfold getAaveBalance, await, try_catch, bind, run.
  rewrite Htok.
  repeat (simpl;
    match goal with
    | |- context [balanceOf p aToken user] => rewrite Hbal
    | |- context [match ?x with _ => _ end] =>
        lazymatch x with
        | context [match _ with _ => _ end] => fail
        | _ => destruct x eqn:?
        end
    end); simpl; reflexivity.
Qed.

Lemma getCompoundBalance_returns env p user :
  exists r, getCompoundBalance env p user = Returned r.
Proof. unfold getCompoundBalance, await, try_catch, bind, run. adapter_cases. Qed.

Lemma getCompoundBalance_error env p user e :
  balanceOf p (COMPOUND_COMET_ADDRESS env) user = Thrown e ->
  getCompoundBalance env p user = Returned 0.
Proof.
  intro H. unfold getCompoundBalance, await, try_catch, bind, run. rewrite H.
  reflexivity.
Qed.

(** C3 fails as stated: a transport failure of the rate reads, which is
    not an unsupported-reserve condition, is not propagated; both rate
    adapters return the rate 0. *)
Lemma rate_read_failure_counterexample :
  is_unsupported_reserve network_error = false /\
  getReserveData failing_provider (AAVE_DATA_PROVIDER_ADDRESS empty_env)
    (tokenAddress sample_config) = Thrown network_error /\
  getAaveAPY empty_env failing_provider (tokenAddress sample_config)
    = Returned (NumInt 0) /\
  getSupplyRate failing_provider (COMPOUND_COMET_ADDRESS empty_env) 800000000000000000
    = Thrown network_error /\
  getCompoundAPY empty_env failing_provider = Returned (NumInt 0).
Proof. repeat split; reflexivity. Qed.

(** C3, amended: a read failure that is not an unsupported-reserve
    condition is recovered locally as well: whichever read of a rate
    adapter fails with it, the adapter returns the rate 0 to its caller. *)
Theorem rate_adapters_recover_other_failures
  (env : string -> option string) (p : provider) (token : string) (e : JS.error) :
  is_unsupported_reserve e = false ->
  (getReserveTokensAddresses p (AAVE_DATA_PROVIDER_ADDRESS env) token = Thrown e \/
   getReserveData p (AAVE_DATA_PROVIDER_ADDRESS env) token = Thrown e ->
   getAaveAPY env p token = Returned (NumInt 0)) /\
  (getCode p (COMPOUND_COMET_ADDRESS env) = Thrown e \/
   getUtilization p (COMPOUND_COMET_ADDRESS env) = Thrown e \/
   (exists u, getUtilization p (COMPOUND_COMET_ADDRESS env) = Returned u /\
              getSupplyRate p (COMPOUND_COMET_ADDRESS env) u = Thrown e) ->
   getCompoundAPY env p = Returned (NumInt 0)).
Proof.
  intros _. split.
  - intros [H | H].
    + eapply getAaveAPY_tokens_error; eassumption.
    + eapply getAaveAPY_data_error; eassumption.
  - intros [H | [H | (u & Hu & H)]].
    + eapply getCompoundAPY_code_error; eassumption.
    + eapply getCompoundAPY_utilization_error; eassumption.
    + eapply getCompoundAPY_rate_error; eassumption.
Qed.

Lemma rate_adapters_recover_other_failures_witness :
  getAaveAPY empty_env failing_provider (tokenAddress sample_config)
    = Returned (NumInt 0).
Proof.
  apply (proj1 (rate_adapters_recover_other_failures empty_env failing_provider
                  (tokenAddress sample_config) network_error eq_refl)).
  right. reflexivity.
Defined.

(** C9: none of the four adapters propagates an exception, and whichever
    read fails, with whatever error, the rate adapters return 0 and the
    balance adapters return 0n. *)
Theorem adapters_never_throw
  (env : string -> option string) (p : provider) (token user : string) :
  ((exists r, getAaveAPY env p token = Returned r) /\
   (exists r, getCompoundAPY env p = Returned r) /\
   (exists r, getAaveBalance env p token user = Returned r) /\
   (exists r, getCompoundBalance env p user = Returned r)) /\
  (forall e,
     getReserveTokensAddresses p (AAVE_DATA_PROVIDER_ADDRESS env) token = Thrown e \/
     getReserveData p (AAVE_DATA_PROVIDER_ADDRESS env) token = Thrown e ->
     getAaveAPY env p token = Returned (NumInt 0)) /\
  (forall e,
     getCode p (COMPOUND_COMET_ADDRESS env) = Thrown e \/
     getUtilization p (COMPOUND_COMET_ADDRESS env) = Thrown e \/
     (exists u, getUtilization p (COMPOUND_COMET_ADDRESS env) = Returned u /\
                getSupplyRate p (COMPOUND_COMET_ADDRESS env) u = Thrown e) ->
     getCompoundAPY env p = Returned (NumInt 0)) /\
  (forall e,
     getReserveTokensAddresses p (AAVE_DATA_PROVIDER_ADDRESS env) token = Thrown e ->
     getAaveBalance env p token user = Returned 0) /\
  (forall aToken others e,
     getReserveTokensAddresses p (AAVE_DATA_PROVIDER_ADDRESS env) token
       = Returned (RArray (aToken :: others)) ->
     balanceOf p aToken user = Thrown e ->
     getAaveBalance env p token user = Returned 0) /\
  ((forall aToken, exists e, balanceOf p aToken user = Thrown e) ->
   getAaveBalance env p token user = Returned 0) /\
  (forall e,
     balanceOf p (COMPOUND_COMET_ADDRESS env) user = Thrown e ->
     getCompoundBalance env p user = Returned 0).
Proof.
  split; [|split; [|split; [|split; [|split; [|split]]]]].
  - repeat split.
    + apply getAaveAPY_returns.
    + apply getCompoundAPY_returns.
    + apply getAaveBalance_returns.
    + apply getCompoundBalance_returns.
  - intros e [H | H].
    + eapply getAaveAPY_tokens_error; eassumption.
    + eapply getAaveAPY_data_error; eassumption.
  - intros e [H | [H | (u & Hu & H)]].
    + eapply getCompoundAPY_code_error; eassumption.
    + eapply getCompoundAPY_utilization_error; eassumption.
    + eapply getCompoundAPY_rate_error; eassumption.
  - intros e H. eapply getAaveBalance_tokens_error; eassumption.
  - intros aToken others e Htok Hbal.
    eapply getAaveBalance_listed_balance_error; eassumption.
  - apply getAaveBalance_balance_error.
  - intros e H. eapply getCompoundBalance_error; eassumption.
Qed.

Lemma adapters_never_throw_witness :
  getAaveBalance empty_env failing_provider (tokenAddress sample_config)
    (safeAddress sample_config) = Returned 0 /\
  getCompoundBalance empty_env failing_provider (safeAddress sample_config)
    = Returned 0.
Proof.
  pose proof (adapters_never_throw empty_env failing_provider
                (tokenAddress sample_config) (safeAddress sample_config))
    as (_ & _ & _ & _ & _ & Hab & Hcb).
  split.
  - apply Hab. intro aToken. exists network_error. reflexivity.
  - apply (Hcb network_error). reflexivity.
Defined.

(* ================================================================== *)
(** ** The rate conversions in binary64                                *)
(* ================================================================== *)

Lemma digits2_pos_bounds (p : positive) :
  2 ^ (Z.pos (digits2_pos p) - 1) <= Z.pos p < 2 ^ Z.pos (digits2_pos p).
Proof.
  induction p as [p IH | p IH |]; cbn [digits2_pos].
  - rewrite Pos2Z.inj_succ.
    replace (Z.succ (Z.pos (digits2_pos p)) - 1) with (Z.succ (Z.pos (digits2_pos p) - 1)) by lia.
    rewrite !Z.pow_succ_r by lia. lia.
  - rewrite Pos2Z.inj_succ.
    replace (Z.succ (Z.pos (digits2_pos p)) - 1) with (Z.succ (Z.pos (digits2_pos p) - 1)) by lia.
    rewrite !Z.pow_succ_r by lia. lia.
  - cbn. lia.
Qed.



Lemma Zdigits2_le (m k : Z) : 0 <= m < 2 ^ k -> 0 <= k -> Zdigits2 m <= k.
Proof.
  intros [H0 Hm] Hk. destruct m as [|p|p]; cbn [Zdigits2]; [assumption | | lia].
  pose proof (digits2_pos_bounds p) as [Hl _].
  assert (Hlt : 2 ^ (Z.pos (digits2_pos p) - 1) < 2 ^ k) by lia.
  apply Z.pow_lt_mono_r_iff in Hlt; lia.
Qed.









Lemma iter_xO_pow (p d : positive) :
  Z.pos (Pos.iter xO p d) = Z.pos p * 2 ^ Z.pos d.
Proof.
  induction d as [|d IH] using Pos.peano_ind.
  - cbn [Pos.iter]. rewrite (Pos2Z.inj_xO p). change (2 ^ 1) with 2. lia.
  - rewrite Pos.iter_succ, (Pos2Z.inj_xO (Pos.iter xO p d)), IH.
    rewrite Pos2Z.inj_succ, Z.pow_succ_r by lia. ring.
Qed.











(** The Aave adapter returns 0 or the conversion of the liquidity rate it
    read from the reserve data. *)
Lemma getAaveAPY_cases (env : string -> option string) (p : provider) (token : string) :
  getAaveAPY env p token = Returned (NumInt 0) \/
  exists resp rate,
    getReserveData p (AAVE_DATA_PROVIDER_ADDRESS env) token = Returned resp /\
    (index resp 5 = Some rate \/ field resp "liquidityRate" = Some rate) /\
    getAaveAPY env p token = Returned (aave_apyBasisPoints rate).
Proof.
  unfold getAaveAPY, await, try_catch, bind, run.
  destruct (getReserveData p (AAVE_DATA_PROVIDER_ADDRESS env) token)
    as [resp|e] eqn:Hdata.
  2: { left. adapter_cases. }
  destruct resp as [items|fields|].
  - destruct (index (RArray items) 5) as [rate|] eqn:Hrate.
    2: { left. simpl in Hrate. adapter_cases. }
    destruct (negb (truthy_big (Some rate)) || (rate =? 0)) eqn:Hz.
    + left. simpl in Hrate. adapter_cases.
    + simpl in Hrate.
      repeat (simpl;
        match goal with
        | |- context [match ?x with _ => _ end] =>
            lazymatch x with
            | context [match _ with _ => _ end] => fail
            | _ => destruct x eqn:?
            end
        end); simpl; try (left; reflexivity);
      try (right; exists (RArray items); eexists; split; [reflexivity|];
           split; [left; simpl; eassumption | reflexivity]);
      try discriminate; simpl in *; congruence.
  - destruct (or_big (field (RObject fields) "liquidityRate") (index (RObject fields) 5))
      as [rate|] eqn:Hrate.
    2: { left. adapter_cases. }
    assert (Hsrc : index (RObject fields) 5 = Some rate \/
                   field (RObject fields) "liquidityRate" = Some rate).
    { unfold or_big in Hrate.
      destruct (truthy_big (field (RObject fields) "liquidityRate"));
        [right | left]; exact Hrate. }
    destruct (negb (truthy_big (Some rate)) || (rate =? 0)) eqn:Hz.
    + left. adapter_cases.
    + adapter_cases; try (left; reflexivity);
      right; exists (RObject fields), rate; (split; [reflexivity|]);
      (split; [exact Hsrc|]); reflexivity.
  - left. adapter_cases.
Qed.

(** The Compound adapter returns 0 or the conversion of the supply rate
    quoted for the utilization it read. *)
Lemma getCompoundAPY_cases (env : string -> option string) (p : provider) :
  getCompoundAPY env p = Returned (NumInt 0) \/
  exists utilization rate,
    getUtilization p (COMPOUND_COMET_ADDRESS env) = Returned utilization /\
    getSupplyRate p (COMPOUND_COMET_ADDRESS env) utilization = Returned rate /\
    getCompoundAPY env p = Returned (compound_apyBasisPoints rate).
Proof.
  unfold getCompoundAPY, await, try_catch, bind, run.
  destruct (getCode p (COMPOUND_COMET_ADDRESS env)) as [code|e]; [|left; reflexivity].
  simpl. destruct (String.eqb code "0x"); [left; reflexivity|].
  destruct (getUtilization p (COMPOUND_COMET_ADDRESS env)) as [u|e];
    [|left; reflexivity].
  simpl.
  destruct (getSupplyRate p (COMPOUND_COMET_ADDRESS env) u) as [rate|e] eqn:Hrate;
    [|left; reflexivity].
  right. exists u, rate. repeat split. exact Hrate.
Qed.




(* ================================================================== *)
(** ** Integers below 2^53 as numbers                                  *)
(* ================================================================== *)

Lemma digits2_iter_xO (p k : positive) :
  digits2_pos (Pos.iter xO p k) = (digits2_pos p + k)%positive.
Proof.
  induction k as [|k IH] using Pos.peano_ind.
  - cbn [Pos.iter digits2_pos]. now rewrite Pos.add_1_r.
  - rewrite Pos.iter_succ. cbn [digits2_pos]. rewrite IH. now rewrite Pos.add_succ_r.
Qed.

Lemma shift_pos_value (v : positive) (k : Z) :
  0 <= k -> Z.pos (pos_shiftl v k) = Z.pos v * 2 ^ k.
Proof.
  intro Hk. destruct k as [|j|j]; cbn [pos_shiftl]; [cbn; lia | | lia].
  apply iter_xO_pow.
Qed.

Lemma shift_pos_digits (v : positive) (k : Z) :
  0 <= k -> Z.pos (digits2_pos (pos_shiftl v k)) = Z.pos (digits2_pos v) + k.
Proof.
  intro Hk. destruct k as [|j|j]; cbn [pos_shiftl]; [lia | | lia].
  rewrite digits2_iter_xO. lia.
Qed.

Lemma shr_1_double (m : Z) :
  0 <= m ->
  shr_1 (Build_shr_record (2 * m) false false) = Build_shr_record m false false.
Proof. destruct m as [|p|p]; intro H; [reflexivity | reflexivity | lia]. Qed.

Lemma iter_shr_1_exact (n : positive) (m : Z) :
  0 <= m ->
  iter_pos shr_1 n (Build_shr_record (m * 2 ^ Z.pos n) false false)
  = Build_shr_record m false false.
Proof.
  revert m. induction n as [n IH | n IH |]; intros m Hm; cbn [iter_pos].
  - assert (Hp : 0 < 2 ^ Z.pos n) by (apply Z.pow_pos_nonneg; lia).
    replace (m * 2 ^ Z.pos n~1) with (2 * ((m * 2 ^ Z.pos n) * 2 ^ Z.pos n)).
    + rewrite shr_1_double by nia. rewrite IH by nia. apply IH. exact Hm.
    + rewrite (Pos2Z.inj_xI n).
      replace (2 * Z.pos n + 1) with (1 + Z.pos n + Z.pos n) by lia.
      rewrite (Z.pow_add_r 2 (1 + Z.pos n) (Z.pos n)) by lia.
      rewrite (Z.pow_add_r 2 1 (Z.pos n)) by lia. change (2 ^ 1) with 2. ring.
  - assert (Hp : 0 < 2 ^ Z.pos n) by (apply Z.pow_pos_nonneg; lia).
    replace (m * 2 ^ Z.pos n~0) with ((m * 2 ^ Z.pos n) * 2 ^ Z.pos n).
    + rewrite IH by nia. apply IH. exact Hm.
    + rewrite (Pos2Z.inj_xO n).
      replace (2 * Z.pos n) with (Z.pos n + Z.pos n) by lia.
      rewrite (Z.pow_add_r 2 (Z.pos n) (Z.pos n)) by lia. ring.
  - change (2 ^ 1) with 2. rewrite Z.mul_comm. now apply shr_1_double.
Qed.

Lemma Zdigits2_shifted (Q : positive) (n : Z) :
  0 <= n -> Zdigits2 (Z.pos Q * 2 ^ n) = Z.pos (digits2_pos Q) + n.
Proof.
  intro Hn. rewrite <- shift_pos_value by assumption. cbn [Zdigits2].
  now apply shift_pos_digits.
Qed.

(** An exact input with a 53-bit mantissa followed by [n] zero bits is
    returned unchanged by the first shift of the rounding. *)
Lemma shr_fexp_exact (Q : positive) (n e : Z) :
  Z.pos (digits2_pos Q) = 53 -> 0 <= n -> -1074 <= e ->
  shr_fexp prec emax (Z.pos Q * 2 ^ n) (e - n) loc_Exact
  = (Build_shr_record (Z.pos Q) false false, e).
Proof.
  intros HQ Hn He. unfold shr_fexp.
  rewrite Zdigits2_shifted by assumption. rewrite HQ.
  replace (fexp prec emax (53 + n + (e - n)) - (e - n)) with n
    by (unfold fexp, emin, prec, emax; lia).
  cbn [shr_record_of_loc]. unfold shr.
  destruct n as [|k|k]; [| | lia].
  - f_equal; [f_equal; cbn; lia | lia].
  - rewrite iter_shr_1_exact by lia. f_equal. lia.
Qed.

Lemma binary_round_aux_exact (s : bool) (Q : positive) (n e : Z) :
  Z.pos (digits2_pos Q) = 53 -> 0 <= n -> -1074 <= e <= 971 ->
  binary_round_aux prec emax s (Z.pos Q * 2 ^ n) (e - n) loc_Exact
  = S754_finite s Q e.
Proof.
  intros HQ Hn He. unfold binary_round_aux.
  rewrite shr_fexp_exact by (try assumption; lia).
  cbn [shr_m loc_of_shr_record round_nearest_even].
  replace (shr_fexp prec emax (Z.pos Q) e loc_Exact)
    with (shr_fexp prec emax (Z.pos Q * 2 ^ 0) (e - 0) loc_Exact)
    by (f_equal; [cbn; lia | lia]).
  rewrite shr_fexp_exact by (try assumption; lia).
  cbn [shr_m].
  replace (e <=? emax - prec) with true
    by (symmetry; apply Z.leb_le; unfold emax, prec; lia).
  reflexivity.
Qed.

(** Rounding an integer below 2^53, given with [k] extra zero bits, gives
    its normal form. *)
Lemma binary_round_small (s : bool) (P v : positive) (k : Z) :
  Z.pos P = Z.pos v * 2 ^ k -> 0 <= k -> Z.pos v < 2 ^ 53 ->
  binary_round prec emax s P (- k) = canon s v.
Proof.
  intros HP Hk Hv. unfold binary_round, canon.
  set (d := Z.pos (digits2_pos v)).
  assert (Hd : 1 <= d <= 53).
  { subst d. split; [lia|]. apply (Zdigits2_le (Z.pos v) 53); lia. }
  assert (HdP : Z.pos (digits2_pos P) = d + k).
  { change (Z.pos (digits2_pos P)) with (Zdigits2 (Z.pos P)).
    rewrite HP. now apply Zdigits2_shifted. }
  set (Q := pos_shiftl v (53 - d)).
  assert (HQv : Z.pos Q = Z.pos v * 2 ^ (53 - d)) by (apply shift_pos_value; lia).
  assert (HQd : Z.pos (digits2_pos Q) = 53)
    by (subst Q; rewrite shift_pos_digits by lia; fold d; lia).
  rewrite HdP.
  replace (fexp prec emax (d + k + - k)) with (d - 53)
    by (unfold fexp, emin, prec, emax; lia).
  unfold shl_align.
  destruct (d - 53 - - k) as [|j|j] eqn:Ej.
  - replace (Z.pos P) with (Z.pos Q * 2 ^ 0)
      by (rewrite HQv, HP; replace k with (53 - d) by lia; cbn; lia).
    replace (- k) with ((d - 53) - 0) by lia.
    apply binary_round_aux_exact; lia.
  - replace (Z.pos P) with (Z.pos Q * 2 ^ Z.pos j).
    + replace (- k) with ((d - 53) - Z.pos j) by lia.
      apply binary_round_aux_exact; lia.
    + rewrite HQv, HP, <- Z.mul_assoc, <- Z.pow_add_r by lia.
      do 2 f_equal. lia.
  - replace (Z.pos (Pos.iter xO P j)) with (Z.pos Q * 2 ^ 0).
    + replace (d - 53) with ((d - 53) - 0) at 1 by lia.
      apply binary_round_aux_exact; lia.
    + rewrite iter_xO_pow, HQv, HP. change (2 ^ 0) with 1. rewrite Z.mul_1_r.
      rewrite <- Z.mul_assoc, <- Z.pow_add_r by lia. do 2 f_equal. lia.
Qed.

Lemma Number_pos (v : positive) :
  Z.pos v < 2 ^ 53 -> Number (Z.pos v) = canon false v.
Proof.
  intro Hv. unfold Number, binary_normalize.
  apply (binary_round_small false v v 0); [cbn; lia | lia | assumption].
Qed.

Lemma Number_neg (v : positive) :
  Z.pos v < 2 ^ 53 -> Number (Z.neg v) = canon true v.
Proof.
  intro Hv. unfold Number, binary_normalize.
  apply (binary_round_small true v v 0); [cbn; lia | lia | assumption].
Qed.

Lemma shl_align_fst (m : positive) (e ez : Z) :
  ez <= e -> Z.pos (fst (shl_align m e ez)) = Z.pos m * 2 ^ (e - ez).
Proof.
  intro H. unfold shl_align.
  destruct (ez - e) as [|j|j] eqn:Ej; cbn [fst].
  - replace (e - ez) with 0 by lia. cbn. lia.
  - lia.
  - rewrite iter_xO_pow. do 2 f_equal. lia.
Qed.

Lemma Number_sub_pos (a c : positive) :
  Z.pos a < 2 ^ 53 -> Z.pos c < 2 ^ 53 ->
  js_minus (canon false a) (canon false c) = Number (Z.pos a - Z.pos c).
Proof.
  intros Ha Hc. unfold js_minus, canon. cbn [SFsub cond_Zopp].
  set (da := Z.pos (digits2_pos a)). set (dc := Z.pos (digits2_pos c)).
  assert (Hda : 1 <= da <= 53).
  { subst da. split; [lia|]. apply (Zdigits2_le (Z.pos a) 53); lia. }
  assert (Hdc : 1 <= dc <= 53).
  { subst dc. split; [lia|]. apply (Zdigits2_le (Z.pos c) 53); lia. }
  set (ez := Z.min (da - 53) (dc - 53)).
  set (k := - ez).
  assert (Hk : 0 <= k) by (subst k ez; lia).
  rewrite !shl_align_fst by (subst ez; lia).
  rewrite !shift_pos_value by lia.
  assert (Ea : Z.pos a * 2 ^ (53 - da) * 2 ^ (da - 53 - ez) = Z.pos a * 2 ^ k).
  { rewrite <- Z.mul_assoc, <- Z.pow_add_r by (subst ez; lia).
    do 2 f_equal. subst k. lia. }
  assert (Ec : Z.pos c * 2 ^ (53 - dc) * 2 ^ (dc - 53 - ez) = Z.pos c * 2 ^ k).
  { rewrite <- Z.mul_assoc, <- Z.pow_add_r by (subst ez; lia).
    do 2 f_equal. subst k. lia. }
  rewrite Ea, Ec.
  assert (Hp : 0 < 2 ^ k) by (apply Z.pow_pos_nonneg; lia).
  replace ez with (- k) by (subst k; lia).
  destruct (Z.pos a * 2 ^ k - Z.pos c * 2 ^ k) as [|P|P] eqn:EM;
    destruct (Z.pos a - Z.pos c) as [|v|v] eqn:Ev; try nia.
  - reflexivity.
  - cbn [binary_normalize]. rewrite Number_pos by lia.
    apply binary_round_small; [nia | lia | lia].
  - cbn [binary_normalize]. rewrite Number_neg by lia.
    apply binary_round_small; [nia | lia | lia].
Qed.

(** Subtraction of two non-negative integers below 2^53 is exact. *)
Lemma Number_sub (a c : Z) :
  0 <= a < 2 ^ 53 -> 0 <= c < 2 ^ 53 ->
  js_minus (Number a) (Number c) = Number (a - c).
Proof.
  intros Ha Hc. destruct a as [|a|a]; destruct c as [|c|c]; try lia.
  - reflexivity.
  - rewrite Number_pos by lia. change (0 - Z.pos c) with (Z.neg c).
    rewrite Number_neg by lia. reflexivity.
  - rewrite Z.sub_0_r. rewrite Number_pos by lia. reflexivity.
  - rewrite !Number_pos by lia. apply Number_sub_pos; lia.
Qed.

Lemma Number_abs (z : Z) :
  - 2 ^ 53 < z < 2 ^ 53 -> Math_abs (Number z) = Number (Z.abs z).
Proof.
  intro Hz. destruct z as [|v|v]; cbn [Z.abs].
  - reflexivity.
  - rewrite Number_pos by lia. reflexivity.
  - rewrite Number_neg, Number_pos by lia. reflexivity.
Qed.

Lemma Zcompare_mul_pos (x y p : Z) :
  0 < p -> (x * p ?= y * p) = (x ?= y).
Proof.
  intro Hp. destruct (Z.compare_spec x y) as [E | E | E].
  - subst. apply Z.compare_refl.
  - apply Z.compare_lt_iff. nia.
  - apply Z.compare_gt_iff. nia.
Qed.

Lemma canon_compare (a c : positive) :
  Z.pos a < 2 ^ 53 -> Z.pos c < 2 ^ 53 ->
  SFcompare (canon false a) (canon false c) = Some (Z.pos a ?= Z.pos c).
Proof.
  intros Ha Hc. unfold canon. cbn [SFcompare].
  set (da := Z.pos (digits2_pos a)). set (dc := Z.pos (digits2_pos c)).
  assert (Hda : 1 <= da <= 53).
  { subst da. split; [lia|]. apply (Zdigits2_le (Z.pos a) 53); lia. }
  assert (Hdc : 1 <= dc <= 53).
  { subst dc. split; [lia|]. apply (Zdigits2_le (Z.pos c) 53); lia. }
  pose proof (digits2_pos_bounds a) as [Hal Hau]. fold da in Hal, Hau.
  pose proof (digits2_pos_bounds c) as [Hcl Hcu]. fold dc in Hcl, Hcu.
  f_equal.
  destruct (Z.compare_spec (da - 53) (dc - 53)) as [E | E | E].
  - match goal with
    | |- Pos.compare_cont Eq ?x ?y = _ =>
        change (Pos.compare_cont Eq x y) with (Z.pos x ?= Z.pos y)
    end.
    rewrite !shift_pos_value by lia.
    replace dc with da by lia.
    apply Zcompare_mul_pos. apply Z.pow_pos_nonneg; lia.
  - symmetry. apply Z.compare_lt_iff.
    apply Z.lt_le_trans with (1 := Hau).
    apply Z.le_trans with (2 := Hcl). apply Z.pow_le_mono_r; lia.
  - symmetry. apply Z.compare_gt_iff.
    apply Z.lt_le_trans with (1 := Hcu).
    apply Z.le_trans with (2 := Hal). apply Z.pow_le_mono_r; lia.
Qed.

(** Comparison of a non-negative integer with an integer, both below 2^53
    in magnitude, is the integer comparison. *)
Lemma Number_compare (x y : Z) :
  0 <= x < 2 ^ 53 -> - 2 ^ 53 < y < 2 ^ 53 ->
  SFcompare (Number x) (Number y) = Some (x ?= y).
Proof.
  intros Hx Hy. destruct x as [|a|a]; destruct y as [|c|c]; try lia.
  - reflexivity.
  - rewrite Number_pos by lia. reflexivity.
  - rewrite Number_neg by lia. reflexivity.
  - rewrite Number_pos by lia. reflexivity.
  - rewrite !Number_pos by lia. apply canon_compare; lia.
  - rewrite Number_pos, Number_neg by lia. reflexivity.
Qed.

Lemma js_gt_Number (x y : Z) :
  0 <= x < 2 ^ 53 -> - 2 ^ 53 < y < 2 ^ 53 ->
  js_gt (Number x) (Number y) = (y <? x).
Proof.
  intros Hx Hy. unfold js_gt. rewrite Number_compare by assumption.
  rewrite Z.ltb_antisym. unfold Z.leb. destruct (x ?= y); reflexivity.
Qed.

Lemma js_ge_Number (x y : Z) :
  0 <= x < 2 ^ 53 -> - 2 ^ 53 < y < 2 ^ 53 ->
  js_ge (Number x) (Number y) = (y <=? x).
Proof.
  intros Hx Hy. unfold js_ge. rewrite Number_compare by assumption.
  rewrite Z.leb_antisym. unfold Z.ltb. destruct (x ?= y); reflexivity.
Qed.
(* ================================================================== *)
(** ** The yield comparator                                            *)
(* ================================================================== *)

Lemma protocol_eqb_eq (a b : protocol) : protocol_eqb a b = true <-> a = b.
Proof. destruct a, b; simpl; split; intro H; try reflexivity; discriminate H. Qed.

Lemma protocol_neqb_neq (a b : protocol) : protocol_neqb a b = true <-> a <> b.
Proof.
  unfold protocol_neqb. rewrite negb_true_iff, <- not_true_iff_false.
  now rewrite protocol_eqb_eq.
Qed.

(** *** The number operations under the swap of their operands *)

Lemma SFcompare_antisym (x y : spec_float) :
  SFcompare y x = option_map CompOpp (SFcompare x y).
Proof.
  destruct x as [sx|sx| |sx mx ex], y as [sy|sy| |sy my ey];
    try destruct sx; try destruct sy; try reflexivity;
    cbn [SFcompare option_map]; f_equal;
    pose proof (Pos.compare_cont_antisym mx my Eq) as H; cbn [CompOpp] in H;
    rewrite (Z.compare_antisym ex ey);
    destruct (ex ?= ey); cbn [CompOpp]; try reflexivity;
    rewrite <- H; reflexivity.
Qed.

Lemma js_gt_asym (x y : spec_float) : js_gt x y = true -> js_gt y x = false.
Proof.
  unfold js_gt. rewrite (SFcompare_antisym x y).
  destruct (SFcompare x y) as [[| |]|]; cbn; congruence.
Qed.

Lemma js_gt_irrefl (x : spec_float) : js_gt x x = false.
Proof.
  destruct (js_gt x x) eqn:E; [|reflexivity].
  now rewrite (js_gt_asym x x E) in E.
Qed.

Lemma js_ge_nan (x : spec_float) : js_ge x S754_nan = false.
Proof. destruct x; reflexivity. Qed.

(** The sign given to a rounding is the sign of its result. *)
Lemma SFabs_binary_round (s : bool) (m : positive) (e : Z) :
  SFabs (binary_round prec emax s m e) = SFabs (binary_round prec emax false m e).
Proof.
  unfold binary_round.
  destruct (shl_align m e (fexp prec emax (Z.pos (digits2_pos m) + e))) as [mz ez].
  unfold binary_round_aux.
  destruct (shr_fexp prec emax (Z.pos mz) ez loc_Exact) as [mrs' e'].
  destruct (shr_fexp prec emax _ e' loc_Exact) as [mrs'' e''].
  destruct (shr_m mrs''); try reflexivity.
  destruct (e'' <=? emax - prec); reflexivity.
Qed.

Lemma SFabs_binary_normalize_opp (m e : Z) :
  SFabs (binary_normalize prec emax (- m) e false)
  = SFabs (binary_normalize prec emax m e false).
Proof.
  destruct m as [|p|p]; cbn [Z.opp binary_normalize]; try reflexivity.
  - apply SFabs_binary_round.
  - symmetry. apply SFabs_binary_round.
Qed.

(** [Math.abs(y - x)] is [Math.abs(x - y)], for all numbers. *)
Lemma Math_abs_minus_swap (x y : spec_float) :
  Math_abs (js_minus y x) = Math_abs (js_minus x y).
Proof.
  unfold Math_abs, js_minus.
  destruct x as [sx|sx| |sx mx ex], y as [sy|sy| |sy my ey];
    try destruct sx; try destruct sy; try reflexivity;
    cbn [SFsub]; rewrite (Z.min_comm ey ex);
    match goal with
    | |- SFabs (binary_normalize _ _ (?a - ?b) _ _) = _ =>
        replace (a - b) with (- (b - a)) by ring
    end;
    apply SFabs_binary_normalize_opp.
Qed.

(** A non-negative integer below 2^53 is a number. *)
Lemma number_is_Number (z : Z) :
  0 <= z < 2 ^ 53 -> number_is (Number z) z = true.
Proof.
  intros [H0 H53]. destruct z as [|v|v]; [reflexivity | | lia].
  rewrite Number_pos by assumption. unfold canon, number_is.
  assert (Hd : 1 <= Z.pos (digits2_pos v) <= 53).
  { split; [lia|]. apply (Zdigits2_le (Z.pos v) 53); lia. }
  pose proof (shift_pos_value v (53 - Z.pos (digits2_pos v)) ltac:(lia)) as Hv.
  destruct (Z.pos (digits2_pos v) - 53) as [|j|j] eqn:Ej.
  - apply Z.eqb_eq. rewrite Hv.
    replace (53 - Z.pos (digits2_pos v)) with 0 by lia.
    change (2 ^ 0) with 1. lia.
  - lia.
  - apply Z.eqb_eq. rewrite Hv. do 2 f_equal. lia.
Qed.

(** *** The decision *)

(** C1 fails as stated: for the rate [getAaveAPY] returns at the liquidity
    rate 2^256 - 1, a rate of 315 bp and a threshold equal to the first
    rate, all three integers, the difference is below the threshold, the
    other three conditions hold, and the decision asks for the move. *)
Lemma shouldMove_rounded_difference_counterexample :
  let X := rate_of_max_liquidity in
  let d := compareYields 0 (Number X) (Number 315) 0 1 (Number X) in
  aave_apyBasisPoints (2 ^ 256 - 1) = NumInt X /\
  number_is (Number X) X = true /\
  number_is (Number 315) 315 = true /\
  Z.abs (X - 315) < X /\
  betterProtocol d = aave /\
  currentProtocol d = compound /\
  shouldMove d = true.
Proof. vm_compute. repeat split. Qed.

(** C1, amended: for rates that are integers in [0, 2^53) and a threshold
    that is an integer of magnitude below 2^53, [shouldMove] holds exactly
    when the absolute rate difference reaches the threshold, the better
    protocol is not [equal], the current protocol is not [none] and the two
    differ; a difference equal to the threshold triggers the move when the
    other three conditions hold.  For all numbers, the test is made on the
    [difference] field, the binary64 value of [Math.abs(rateA - rateB)],
    with the number comparison [>=]; a threshold [NaN] never triggers a
    move. *)
Theorem shouldMove_iff (now : Z) (rateA rateB : spec_float)
  (positionA positionB : Z) (t : threshold) :
  let d := compareYields now rateA rateB positionA positionB t in
  (shouldMove d = true <->
     js_ge (difference d) t = true /\
     betterProtocol d <> equal /\
     currentProtocol d <> none /\
     currentProtocol d <> betterProtocol d)
  /\
  (forall a b n : Z,
     rateA = Number a -> rateB = Number b -> t = Number n ->
     0 <= a < 2 ^ 53 -> 0 <= b < 2 ^ 53 -> - 2 ^ 53 < n < 2 ^ 53 ->
     (shouldMove d = true <->
        n <= Z.abs (a - b) /\
        betterProtocol d <> equal /\
        currentProtocol d <> none /\
        currentProtocol d <> betterProtocol d)
     /\
     (n = Z.abs (a - b) ->
      betterProtocol d <> equal ->
      currentProtocol d <> none ->
      currentProtocol d <> betterProtocol d ->
      shouldMove d = true))
  /\
  (t = S754_nan -> shouldMove d = false).
Proof.
  intro d.
  assert (Hiff : shouldMove d = true <->
     js_ge (difference d) t = true /\
     betterProtocol d <> equal /\
     currentProtocol d <> none /\
     currentProtocol d <> betterProtocol d).
  { subst d. cbn [compareYields shouldMove difference betterProtocol currentProtocol].
    rewrite !andb_true_iff, !protocol_neqb_neq. tauto. }
  split; [exact Hiff|]. split.
  - intros a b n Ha Hb Hn Ba Bb Bn.
    assert (Hge : js_ge (difference d) t = (n <=? Z.abs (a - b))).
    { subst d rateA rateB t. cbn [compareYields difference].
      rewrite Number_sub by assumption.
      rewrite Number_abs by lia.
      apply js_ge_Number; lia. }
    rewrite Hge, Z.leb_le in Hiff.
    split; [exact Hiff|].
    intros Hd H1 H2 H3. apply Hiff. repeat split; try assumption. lia.
  - intros Ht. apply not_true_is_false. intro Hs.
    apply Hiff in Hs. destruct Hs as [Hge _].
    rewrite Ht, js_ge_nan in Hge. discriminate Hge.
Qed.

(** The scenario of the spec: 230 bp against 280 bp, 500e6 held in A,
    threshold 50 bp. *)
Lemma shouldMove_iff_witness :
  shouldMove (compareYields 0 (Number 230) (Number 280) 500000000 0 (Number 50))
  = true.
Proof.
  destruct (shouldMove_iff 0 (Number 230) (Number 280) 500000000 0 (Number 50))
    as (_ & H & _).
  destruct (H 230 280 50 eq_refl eq_refl eq_refl
              ltac:(lia) ltac:(lia) ltac:(lia)) as [_ Hb].
  apply Hb.
  - reflexivity.
  - vm_compute; discriminate.
  - vm_compute; discriminate.
  - vm_compute; discriminate.
Defined.

(** The scenarios of the spec around the threshold. *)
Example scenario_threshold_met :
  let d := compareYields 0 (Number 230) (Number 280) 500000000 0 (Number 50) in
  betterProtocol d = compound /\ currentProtocol d = aave /\
  difference d = Number 50 /\ number_is (difference d) 50 = true /\
  shouldMove d = true.
Proof. vm_compute. repeat split. Qed.

Example scenario_threshold_above :
  shouldMove (compareYields 0 (Number 230) (Number 280) 500000000 0 (Number 51))
  = false.
Proof. vm_compute. reflexivity. Qed.

Example scenario_difference_below :
  shouldMove (compareYields 0 (Number 230) (Number 235) 500000000 0 (Number 50))
  = false.
Proof. vm_compute. reflexivity. Qed.

Example scenario_threshold_not_a_number :
  shouldMove (compareYields 0 (Number 230) (Number 280) 500000000 0 S754_nan)
  = false.
Proof. vm_compute. reflexivity. Qed.

(** C7: the current protocol is A exactly when the balance in A is
    positive, B exactly when A holds nothing and B is positive, and [none]
    exactly when both are zero; funds in both protocols classify as A. *)
Theorem currentProtocol_classification
  (now : Z) (rateA rateB : spec_float) (positionA positionB : Z) (t : threshold) :
  0 <= positionA -> 0 <= positionB ->
  let d := compareYields now rateA rateB positionA positionB t in
  (currentProtocol d = aave <-> 0 < positionA) /\
  (currentProtocol d = compound <-> positionA = 0 /\ 0 < positionB) /\
  (currentProtocol d = none <-> positionA = 0 /\ positionB = 0) /\
  (0 < positionA -> 0 < positionB -> currentProtocol d = aave).
Proof.
  intros HA HB d. subst d. cbn [compareYields currentProtocol].
  destruct (Z.ltb_spec 0 positionA) as [Ha|Ha];
    destruct (Z.ltb_spec 0 positionB) as [Hb|Hb];
    repeat split; intros; try discriminate; try reflexivity; try lia;
    match goal with
    | H : _ /\ _ |- _ => destruct H; lia
    end.
Qed.

Lemma currentProtocol_classification_witness :
  currentProtocol (compareYields 0 (Number 230) (Number 280) 5 7 (Number 50)) = aave.
Proof.
  refine (proj2 (proj2 (proj2
    (currentProtocol_classification 0 (Number 230) (Number 280) 5 7 (Number 50)
       _ _))) _ _); lia.
Defined.

(** C8 fails as stated, in two ways.  With funds in both protocols the
    current protocol is A before and after the swap, and the move decision
    changes.  And for the rate [getAaveAPY] returns at the liquidity rate
    2^256 - 1 against a rate of 315 bp, both integers, the difference field
    is the first rate, not the absolute difference of the two. *)
Lemma swap_split_position_counterexample :
  let d := compareYields 0 (Number 100) (Number 200) 1 1 (Number 50) in
  let d' := compareYields 0 (Number 200) (Number 100) 1 1 (Number 50) in
  let X := rate_of_max_liquidity in
  let D := compareYields 0 (Number X) (Number 315) 0 1 (Number 50) in
  (currentProtocol d = aave /\
   currentProtocol d' = aave /\
   currentProtocol d' <> swap_protocol (currentProtocol d) /\
   shouldMove d = true /\ shouldMove d' = false)
  /\
  (number_is (Number X) X = true /\
   number_is (Number 315) 315 = true /\
   number_is (difference D) X = true /\
   number_is (difference D) (Z.abs (X - 315)) = false).
Proof. vm_compute. repeat split; discriminate. Qed.

(** C8, amended: for rates that are integers in [0, 2^53) the difference
    is the number [|rateA - rateB|], exactly.  For all numbers, the
    difference does not change under the swap of the two protocols and the
    better protocol flips; the current protocol flips and the move decision
    is kept when the wallet does not hold funds in both protocols; with
    funds in both, the current protocol is A before and after the swap. *)
Theorem compareYields_swap (now : Z) (rateA rateB : spec_float)
  (positionA positionB : Z) (t : threshold) :
  let d := compareYields now rateA rateB positionA positionB t in
  let d' := compareYields now rateB rateA positionB positionA t in
  (forall a b : Z,
     rateA = Number a -> rateB = Number b ->
     0 <= a < 2 ^ 53 -> 0 <= b < 2 ^ 53 ->
     difference d = Number (Z.abs (a - b)) /\
     number_is (difference d) (Z.abs (a - b)) = true) /\
  difference d' = difference d /\
  betterProtocol d' = swap_protocol (betterProtocol d) /\
  (~ (0 < positionA /\ 0 < positionB) ->
   currentProtocol d' = swap_protocol (currentProtocol d) /\
   shouldMove d' = shouldMove d) /\
  (0 < positionA -> 0 < positionB ->
   currentProtocol d = aave /\ currentProtocol d' = aave).
Proof.
  intros d d'. subst d d'.
  cbn [compareYields difference betterProtocol currentProtocol shouldMove].
  rewrite (Math_abs_minus_swap rateA rateB).
  assert (Hgt : js_gt rateA rateB = true -> js_gt rateB rateA = false)
    by apply js_gt_asym.
  split; [|split; [|split; [|split]]].
  - intros a b -> -> Ba Bb.
    rewrite Number_sub by assumption.
    rewrite Number_abs by lia.
    split; [reflexivity|]. apply number_is_Number. lia.
  - reflexivity.
  - destruct (js_gt rateA rateB), (js_gt rateB rateA);
      try reflexivity. now specialize (Hgt eq_refl).
  - intro Hsplit.
    destruct (Z.ltb_spec 0 positionA), (Z.ltb_spec 0 positionB);
      try (exfalso; apply Hsplit; split; assumption);
      destruct (js_gt rateA rateB), (js_gt rateB rateA);
      try (now specialize (Hgt eq_refl));
      cbn [swap_protocol protocol_neqb protocol_eqb negb];
      rewrite ?andb_false_r, ?andb_true_r; split; reflexivity.
  - intros Ha Hb. apply Z.ltb_lt in Ha, Hb. rewrite Ha, Hb. split; reflexivity.
Qed.

Lemma compareYields_swap_witness :
  difference (compareYields 0 (Number 230) (Number 280) 500000000 0 (Number 50))
    = Number 50 /\
  currentProtocol (compareYields 0 (Number 280) (Number 230) 0 500000000 (Number 50)) =
    swap_protocol
      (currentProtocol
         (compareYields 0 (Number 230) (Number 280) 500000000 0 (Number 50))) /\
  shouldMove (compareYields 0 (Number 280) (Number 230) 0 500000000 (Number 50)) =
    shouldMove (compareYields 0 (Number 230) (Number 280) 500000000 0 (Number 50)).
Proof.
  destruct (compareYields_swap 0 (Number 230) (Number 280) 500000000 0 (Number 50))
    as (Hd & _ & _ & Hs & _).
  split.
  - apply (Hd 230 280 eq_refl eq_refl); lia.
  - apply Hs. lia.
Defined.

(* ================================================================== *)
(** ** The rebalance plan                                              *)
(* ================================================================== *)

(** A decision that asks for a move names two different protocols. *)
Lemma shouldMove_protocols (now : Z) (rateA rateB : spec_float)
  (positionA positionB : Z) (t : threshold) :
  let d := compareYields now rateA rateB positionA positionB t in
  shouldMove d = true ->
  (currentProtocol d = aave /\ betterProtocol d = compound) \/
  (currentProtocol d = compound /\ betterProtocol d = aave).
Proof.
  intro d. subst d.
  cbn [compareYields shouldMove betterProtocol currentProtocol].
  rewrite !andb_true_iff, !protocol_neqb_neq.
  intros [[[_ Hb] Hc] Hcb].
  destruct (0 <? positionA), (0 <? positionB),
    (js_gt rateA rateB), (js_gt rateB rateA); auto; congruence.
Qed.

(** C2: the plan is empty when no move is asked for or the current
    protocol holds nothing; otherwise it is the three calls withdraw from
    the current protocol, approve the destination, supply into the better
    protocol, in this order, each for the whole balance of the current
    protocol. *)
Theorem generateRebalanceTransactions_plan
  (env : string -> option string)
  (now : Z) (rateA rateB : spec_float)
  (positionA positionB : Z) (t : threshold)
  (aaveBalance compoundBalance : Z) (config : YieldOptimizerConfig) :
  let d := compareYields now rateA rateB positionA positionB t in
  let amount :=
    if protocol_eqb (currentProtocol d) aave then aaveBalance else compoundBalance in
  let plan :=
    generateRebalanceTransactions env now rateA rateB positionA positionB t
      aaveBalance compoundBalance config in
  (shouldMove d = false \/ amount = 0 -> plan = []) /\
  (shouldMove d = true -> amount <> 0 -> currentProtocol d = aave ->
   amount = aaveBalance /\
   plan =
     [ {| to := AAVE_POOL_ADDRESS env; value := "0";
          data := encodeFunctionData AAVE_POOL_ABI "withdraw"
                    [ ArgAddress (tokenAddress config); ArgUint amount;
                      ArgAddress (safeAddress config) ] |};
       {| to := tokenAddress config; value := "0";
          data := encodeFunctionData ERC20_ABI "approve"
                    [ ArgAddress (COMPOUND_COMET_ADDRESS env); ArgUint amount ] |};
       {| to := COMPOUND_COMET_ADDRESS env; value := "0";
          data := encodeFunctionData COMPOUND_COMET_ABI "supply"
                    [ ArgAddress (tokenAddress config); ArgUint amount ] |} ]) /\
  (shouldMove d = true -> amount <> 0 -> currentProtocol d <> aave ->
   currentProtocol d = compound /\ amount = compoundBalance /\
   plan =
     [ {| to := COMPOUND_COMET_ADDRESS env; value := "0";
          data := encodeFunctionData COMPOUND_COMET_ABI "withdraw"
                    [ ArgAddress (tokenAddress config); ArgUint amount ] |};
       {| to := tokenAddress config; value := "0";
          data := encodeFunctionData ERC20_ABI "approve"
                    [ ArgAddress (AAVE_POOL_ADDRESS env); ArgUint amount ] |};
       {| to := AAVE_POOL_ADDRESS env; value := "0";
          data := encodeFunctionData AAVE_POOL_ABI "supply"
                    [ ArgAddress (tokenAddress config); ArgUint amount;
                      ArgAddress (safeAddress config); ArgUint 0 ] |} ]).
Proof.
  intros d amount plan.
  pose proof (shouldMove_protocols now rateA rateB positionA positionB t) as Hp.
  fold d in Hp. cbv zeta in Hp.
  subst plan. unfold generateRebalanceTransactions, rebalancePlan.
  fold d. fold amount.
  split; [|split].
  - intros [Hs | Ha].
    + now rewrite Hs.
    + destruct (shouldMove d); [|reflexivity]. simpl negb. cbv iota.
      now rewrite Ha.
  - intros Hs Ha Hc. rewrite Hs. simpl negb. cbv iota.
    apply Z.eqb_neq in Ha. rewrite Ha.
    destruct (Hp Hs) as [[_ Hb] | [Hc' _]]; [|congruence].
    subst amount. rewrite Hc, Hb. simpl. split; reflexivity.
  - intros Hs Ha Hc. rewrite Hs. simpl negb. cbv iota.
    apply Z.eqb_neq in Ha. rewrite Ha.
    destruct (Hp Hs) as [[Hc' _] | [Hc' Hb]]; [congruence|].
    subst amount. rewrite Hc', Hb. simpl. repeat split; reflexivity.
Qed.

(** The spec's scenario: 500e6 in A, B better by the threshold, and
    1_000_000 found in A at the second read. *)
Lemma generateRebalanceTransactions_plan_witness :
  List.length
    (generateRebalanceTransactions empty_env 0 (Number 230) (Number 280)
       500000000 0 (Number 50) 1000000 0 sample_config) = 3%nat.
Proof.
  destruct (generateRebalanceTransactions_plan empty_env 0 (Number 230)
              (Number 280) 500000000 0 (Number 50) 1000000 0 sample_config)
    as (_ & H & _).
  destruct H as [_ ->];
    [vm_compute; reflexivity | discriminate | vm_compute; reflexivity
    | reflexivity].
Defined.

(** Every transaction of a plan carries the value ['0'], whatever the
    decision record and the balances. *)
Lemma rebalancePlan_value (env : string -> option string)
  (yieldData : YieldComparison) (aaveBalance compoundBalance : Z)
  (config : YieldOptimizerConfig) :
  Forall (fun tx => value tx = "0"%string)
    (rebalancePlan env yieldData aaveBalance compoundBalance config).
Proof.
  unfold rebalancePlan.
  destruct (shouldMove yieldData); simpl negb; cbv iota; [|constructor].
  destruct (_ =? 0); [constructor|].
  destruct (protocol_eqb (currentProtocol yieldData) aave),
    (protocol_eqb (currentProtocol yieldData) compound),
    (protocol_eqb (betterProtocol yieldData) aave),
    (protocol_eqb (betterProtocol yieldData) compound);
    simpl; repeat constructor.
Qed.

(** C10: each transaction of a rebalance plan and the placeholder
    transaction carry the native-asset value ['0']. *)
Theorem transactions_carry_no_value
  (env : string -> option string)
  (now : Z) (rateA rateB : spec_float)
  (positionA positionB : Z) (t : threshold)
  (aaveBalance compoundBalance : Z) (config : YieldOptimizerConfig)
  (safe : string) :
  Forall (fun tx => value tx = "0"%string)
    (generateRebalanceTransactions env now rateA rateB positionA positionB t
       aaveBalance compoundBalance config) /\
  Forall (fun tx => value tx = "0"%string) (generatePlaceholderTransaction safe).
Proof.
  split.
  - apply rebalancePlan_value.
  - repeat constructor.
Qed.

(* ================================================================== *)
(** ** The comparator with its reads                                   *)
(* ================================================================== *)

Lemma js_gt_nan_l (x : spec_float) : js_gt S754_nan x = false.
Proof. reflexivity. Qed.

Lemma js_gt_nan_r (x : spec_float) : js_gt x S754_nan = false.
Proof. destruct x; reflexivity. Qed.

(** X1: on rates that are integers in [0, 2^53) the better protocol is
    the one with the strictly higher rate and ['equal'] exactly for equal
    rates; when a rate is [NaN] the better protocol is ['equal'] and no
    move is asked for; the better protocol is never ['none']. *)
Theorem betterProtocol_of_rates (now : Z) (rateA rateB : spec_float)
  (positionA positionB : Z) (t : threshold) :
  let d := compareYields now rateA rateB positionA positionB t in
  (forall a b : Z,
     rateA = Number a -> rateB = Number b ->
     0 <= a < 2 ^ 53 -> 0 <= b < 2 ^ 53 ->
     (betterProtocol d = aave <-> b < a) /\
     (betterProtocol d = compound <-> a < b) /\
     (betterProtocol d = equal <-> a = b)) /\
  (rateA = S754_nan \/ rateB = S754_nan ->
   betterProtocol d = equal /\ shouldMove d = false) /\
  betterProtocol d <> none.
Proof.
  intro d. subst d. cbn [compareYields betterProtocol shouldMove].
  split; [|split].
  - intros a b -> -> Ba Bb. rewrite !js_gt_Number by lia.
    destruct (Z.ltb_spec b a), (Z.ltb_spec a b);
      repeat split; intros; try discriminate; try reflexivity; lia.
  - intros [-> | ->]; rewrite ?js_gt_nan_l, ?js_gt_nan_r;
      cbn [protocol_neqb protocol_eqb negb];
      rewrite ?andb_false_r; split; reflexivity.
  - destruct (js_gt rateA rateB), (js_gt rateB rateA); discriminate.
Qed.

Lemma betterProtocol_of_rates_witness :
  betterProtocol
    (compareYields 0 (Number 230) (Number 280) 500000000 0 (Number 50))
  = compound.
Proof.
  destruct (betterProtocol_of_rates 0 (Number 230) (Number 280) 500000000 0
              (Number 50)) as (H & _ & _).
  destruct (H 230 280 eq_refl eq_refl ltac:(lia) ltac:(lia)) as (_ & Hc & _).
  apply Hc. lia.
Defined.

(** X2: with its reads, [compareYields] throws exactly when one of
    [RPC_URL], [TOKEN_ADDRESS], [SAFE_WALLET_ADDRESS] is unset or empty, and
    then with the message of line 20; no failure of a chain read makes it
    throw. *)
Theorem compareYields_throws_only_on_env
  (env : string -> option string) (parseInt : string -> spec_float)
  (p : provider) (now : Z) :
  let configured :=
    truthy_str (env "RPC_URL"%string) && truthy_str (env "TOKEN_ADDRESS"%string) &&
    truthy_str (env "SAFE_WALLET_ADDRESS"%string) in
  (configured = false ->
   compareYields_async env parseInt p now
   = Thrown (new_Error "Missing required environment variables")) /\
  (configured = true ->
   exists d, compareYields_async env parseInt p now = Returned d).
Proof.
  intro configured. subst configured. unfold compareYields_async.
  destruct (truthy_str (env "RPC_URL"%string)), (truthy_str (env "TOKEN_ADDRESS"%string)),
    (truthy_str (env "SAFE_WALLET_ADDRESS"%string)); cbn [negb orb andb];
    split; intro H; try discriminate H; try reflexivity.
  destruct (getAaveAPY_returns env p (env_get (env "TOKEN_ADDRESS"%string))) as [r1 ->].
  destruct (getCompoundAPY_returns env p) as [r2 ->].
  destruct (getAaveBalance_returns env p (env_get (env "TOKEN_ADDRESS"%string))
              (env_get (env "SAFE_WALLET_ADDRESS"%string))) as [r3 ->].
  destruct (getCompoundBalance_returns env p
              (env_get (env "SAFE_WALLET_ADDRESS"%string))) as [r4 ->].
  cbn [await bind run]. eexists. reflexivity.
Qed.

Lemma compareYields_throws_only_on_env_witness :
  compareYields_async empty_env (fun _ => Number 50) failing_provider 0
  = Thrown (new_Error "Missing required environment variables").
Proof.
  apply (proj1 (compareYields_throws_only_on_env empty_env (fun _ => Number 50)
                  failing_provider 0)).
  reflexivity.
Defined.

(** X3: when the registry read, the code read and the Comet balance read
    all fail, a configured [compareYields] still returns: both rates 0,
    difference 0, better protocol ['equal'], current protocol ['none'] and
    no move, whatever the threshold. *)
Theorem compareYields_outage
  (env : string -> option string) (parseInt : string -> spec_float)
  (p : provider) (now : Z) (e1 e2 e3 : JS.error) :
  truthy_str (env "RPC_URL"%string) = true ->
  truthy_str (env "TOKEN_ADDRESS"%string) = true ->
  truthy_str (env "SAFE_WALLET_ADDRESS"%string) = true ->
  getReserveTokensAddresses p (AAVE_DATA_PROVIDER_ADDRESS env)
    (env_get (env "TOKEN_ADDRESS"%string)) = Thrown e1 ->
  getCode p (COMPOUND_COMET_ADDRESS env) = Thrown e2 ->
  balanceOf p (COMPOUND_COMET_ADDRESS env) (env_get (env "SAFE_WALLET_ADDRESS"%string))
    = Thrown e3 ->
  compareYields_async env parseInt p now =
    Returned
      {| timestamp := now;
         aaveAPY := Number 0;
         compoundAPY := Number 0;
         difference := Number 0;
         betterProtocol := equal;
         shouldMove := false;
         currentProtocol := none |}.
Proof.
  intros H1 H2 H3 Htok Hcode Hbal. unfold compareYields_async.
  rewrite H1, H2, H3. cbn [negb orb].
  rewrite (getAaveAPY_tokens_error env p _ e1 Htok).
  rewrite (getCompoundAPY_code_error env p e2 Hcode).
  rewrite (getAaveBalance_tokens_error env p _ _ e1 Htok).
  rewrite (getCompoundBalance_error env p _ e3 Hbal).
  cbn [await bind run to_float]. f_equal.
  unfold compareYields.
  change (js_minus (Number 0) (Number 0)) with (Number 0).
  change (Math_abs (Number 0)) with (Number 0).
  change (js_gt (Number 0) (Number 0)) with false.
  cbn [Z.ltb Z.compare protocol_neqb protocol_eqb negb andb].
  rewrite andb_false_r. reflexivity.
Qed.

Lemma compareYields_outage_witness :
  exists d,
    compareYields_async configured_env (fun _ => Number 50)
      outage_provider 0 = Returned d /\
    shouldMove d = false.
Proof.
  eexists. split.
  - apply (compareYields_outage configured_env (fun _ => Number 50)
             outage_provider 0 network_error network_error network_error);
      reflexivity.
  - reflexivity.
Defined.

(** X4: a decision that asks for a move names as current a protocol that
    holds funds and as better the other one, whose rate is strictly
    higher, and its difference reaches the threshold. *)
Theorem shouldMove_goes_to_higher_rate (now : Z) (rateA rateB : spec_float)
  (positionA positionB : Z) (t : threshold) :
  let d := compareYields now rateA rateB positionA positionB t in
  shouldMove d = true ->
  js_ge (difference d) t = true /\
  ((currentProtocol d = aave /\ betterProtocol d = compound /\
    0 < positionA /\ js_gt rateB rateA = true) \/
   (currentProtocol d = compound /\ betterProtocol d = aave /\
    positionA <= 0 /\ 0 < positionB /\ js_gt rateA rateB = true)).
Proof.
  intro d. subst d.
  cbn [compareYields shouldMove difference betterProtocol currentProtocol].
  rewrite !andb_true_iff, !protocol_neqb_neq.
  intros [[[Hge Hb] Hc] Hcb]. split; [exact Hge|].
  destruct (Z.ltb_spec 0 positionA), (Z.ltb_spec 0 positionB),
    (js_gt rateA rateB) eqn:Hab, (js_gt rateB rateA) eqn:Hba;
    try congruence;
    ((left; repeat split; (reflexivity || lia)) ||
     (right; repeat split; (reflexivity || lia))).
Qed.

Lemma shouldMove_goes_to_higher_rate_witness :
  js_ge
    (difference (compareYields 0 (Number 230) (Number 280) 500000000 0 (Number 50)))
    (Number 50) = true.
Proof.
  apply (shouldMove_goes_to_higher_rate 0 (Number 230) (Number 280) 500000000 0
           (Number 50)).
  vm_compute. reflexivity.
Defined.

(** X5: while the wallet holds funds in Aave, the plan is empty or
    withdraws from Aave and supplies into Compound; funds held in Compound
    are not moved, also when Aave has the higher rate. *)
Theorem split_position_moves_only_aave
  (env : string -> option string)
  (now : Z) (rateA rateB : spec_float) (positionA positionB : Z) (t : threshold)
  (aaveBalance compoundBalance : Z) (config : YieldOptimizerConfig) :
  0 < positionA ->
  let plan :=
    generateRebalanceTransactions env now rateA rateB positionA positionB t
      aaveBalance compoundBalance config in
  (js_gt rateB rateA = false -> plan = []) /\
  (plan = [] \/
   plan =
     [ {| to := AAVE_POOL_ADDRESS env; value := "0";
          data := encodeFunctionData AAVE_POOL_ABI "withdraw"
                    [ ArgAddress (tokenAddress config); ArgUint aaveBalance;
                      ArgAddress (safeAddress config) ] |};
       {| to := tokenAddress config; value := "0";
          data := encodeFunctionData ERC20_ABI "approve"
                    [ ArgAddress (COMPOUND_COMET_ADDRESS env);
                      ArgUint aaveBalance ] |};
       {| to := COMPOUND_COMET_ADDRESS env; value := "0";
          data := encodeFunctionData COMPOUND_COMET_ABI "supply"
                    [ ArgAddress (tokenAddress config);
                      ArgUint aaveBalance ] |} ]).
Proof.
  intros HA plan. subst plan.
  unfold generateRebalanceTransactions, rebalancePlan, compareYields.
  cbn [shouldMove currentProtocol betterProtocol].
  apply Z.ltb_lt in HA. rewrite HA. cbn [protocol_neqb protocol_eqb negb andb].
  split.
  - intros ->.
    destruct (js_gt rateA rateB);
      cbn [protocol_neqb protocol_eqb negb andb];
      rewrite ?andb_false_r, ?andb_true_r; reflexivity.
  - destruct (js_ge (Math_abs (js_minus rateA rateB)) t),
      (js_gt rateA rateB), (js_gt rateB rateA);
      cbn [protocol_neqb protocol_eqb negb andb]; auto;
      destruct (aaveBalance =? 0); auto.
Qed.

Lemma split_position_moves_only_aave_witness :
  generateRebalanceTransactions empty_env 0 (Number 300) (Number 200) 5 7000000
    (Number 50) 5 7000000 sample_config = [].
Proof.
  apply (proj1 (split_position_moves_only_aave empty_env 0 (Number 300)
                  (Number 200) 5 7000000 (Number 50) 5 7000000 sample_config
                  ltac:(lia))).
  vm_compute. reflexivity.
Defined.

(** X6: an asset whose receipt token is missing, empty or the zero address
    has the Aave rate 0, and a Comet address without code has the Compound
    rate 0, whatever the rate reads would return. *)
Theorem unsupported_deployment_rates
  (env : string -> option string) (p : provider) (token : string) :
  (forall items,
     getReserveTokensAddresses p (AAVE_DATA_PROVIDER_ADDRESS env) token
       = Returned (RArray items) ->
     nth_error items 0 = None \/ nth_error items 0 = Some ""%string \/
     nth_error items 0 = Some ZeroAddress ->
     getAaveAPY env p token = Returned (NumInt 0)) /\
  (getCode p (COMPOUND_COMET_ADDRESS env) = Returned "0x"%string ->
   getCompoundAPY env p = Returned (NumInt 0)).
Proof.
  split.
  - intros items Htok H. unfold getAaveAPY, await, try_catch, bind, run.
    rewrite Htok. cbn [index].
    destruct H as [-> | [-> | ->]]; reflexivity.
  - intro Hcode. unfold getCompoundAPY, await, try_catch, bind, run.
    rewrite Hcode. reflexivity.
Qed.

Lemma unsupported_deployment_rates_witness :
  getAaveAPY empty_env unlisted_provider (tokenAddress sample_config)
    = Returned (NumInt 0) /\
  getCompoundAPY empty_env unlisted_provider = Returned (NumInt 0).
Proof.
  destruct (unsupported_deployment_rates empty_env unlisted_provider
              (tokenAddress sample_config)) as [Ha Hc].
  split.
  - apply (Ha [ZeroAddress; ZeroAddress; ZeroAddress]); [reflexivity|].
    right. right. reflexivity.
  - apply Hc. reflexivity.
Defined.

(** X7: when the registry lists a receipt token (not empty, not the zero
    address) and the balance read on it succeeds, [getAaveBalance] returns
    that balance; [getCompoundBalance] returns the balance the Comet
    contract reports. *)
Theorem balance_adapters_return_chain_balance
  (env : string -> option string) (p : provider) (token user : string) :
  (forall aToken others balance,
     getReserveTokensAddresses p (AAVE_DATA_PROVIDER_ADDRESS env) token
       = Returned (RArray (aToken :: others)) ->
     aToken <> ""%string -> aToken <> ZeroAddress ->
     balanceOf p aToken user = Returned balance ->
     getAaveBalance env p token user = Returned balance) /\
  (forall balance,
     balanceOf p (COMPOUND_COMET_ADDRESS env) user = Returned balance ->
     getCompoundBalance env p user = Returned balance).
Proof.
  split.
  - intros aToken others balance Htok Hne Hnz Hbal.
    unfold getAaveBalance, await, try_catch, bind, run. rewrite Htok.
    cbn [index nth_error]. apply String.eqb_neq in Hne, Hnz.
    unfold truthy_str. rewrite Hne. cbn [negb andb].
    change (String.eqb aToken "0x0000000000000000000000000000000000000000")
      with (String.eqb aToken ZeroAddress).
    rewrite Hnz. cbn [orb]. rewrite Hbal.
    destruct (Z.eqb_spec balance 0) as [-> | _];
      cbn; rewrite ?Hne, ?Hnz; reflexivity.
  - intros balance Hbal.
    unfold getCompoundBalance, await, try_catch, bind, run. rewrite Hbal.
    reflexivity.
Qed.

Lemma balance_adapters_return_chain_balance_witness :
  getAaveBalance empty_env (balance_provider 500000000)
    (tokenAddress sample_config) (safeAddress sample_config)
  = Returned 500000000.
Proof.
  apply (proj1 (balance_adapters_return_chain_balance empty_env
                  (balance_provider 500000000) (tokenAddress sample_config)
                  (safeAddress sample_config))
           "0x724dc807b04555b71ed48a6896b6F41593b8C637"%string []);
    [reflexivity | discriminate | discriminate | reflexivity].
Defined.

(* ================================================================== *)
(** ** The monitor endpoint                                            *)
(* ================================================================== *)

Lemma Returned_inj {R} (a b : R) : Returned a = Returned b -> a = b.
Proof. intro H. now injection H. Qed.

Lemma monitor_getAaveAPY_returns (env : string -> option string) (p : provider) :
  exists r, Monitor.getAaveAPY env p = Returned r.
Proof. unfold Monitor.getAaveAPY, await, try_catch, bind, run. adapter_cases. Qed.

Lemma monitor_getCompoundAPY_returns (env : string -> option string) (p : provider) :
  exists r, Monitor.getCompoundAPY env p = Returned r.
Proof. unfold Monitor.getCompoundAPY, await, try_catch, bind, run. adapter_cases. Qed.

(** X8: the endpoint answers [OPTIONS] with 200 and no body, any method
    other than [OPTIONS] and [GET] with 405, and every [GET] with 200 and
    the yield data, whose [value] is its [metadata.difference] and whose
    better protocol is never ['equal']; it never answers 500, whatever the
    chain reads do. *)
Theorem handler_status
  (env : string -> option string) (method : string) (p : provider) (now : Z) :
  exists response,
    Monitor.handler env method p now = Returned response /\
    Monitor.headers response = Monitor.cors_headers /\
    Monitor.status response <> 500 /\
    (method = "OPTIONS"%string ->
     Monitor.status response = 200 /\ Monitor.sent response = Monitor.NoBody) /\
    (method <> "OPTIONS"%string -> method <> "GET"%string ->
     Monitor.status response = 405 /\
     Monitor.sent response = Monitor.ErrorBody "Method not allowed" None) /\
    (method = "GET"%string ->
     Monitor.status response = 200 /\
     exists data,
       Monitor.sent response = Monitor.DataBody data /\
       Monitor.value data = Monitor.difference (Monitor.metadata data) /\
       Monitor.betterProtocol (Monitor.metadata data) <> equal /\
       Monitor.betterProtocol (Monitor.metadata data) <> none).
Proof.
  unfold Monitor.handler.
  destruct (String.eqb_spec method "OPTIONS") as [Ho | Ho].
  { eexists. split; [reflexivity|]. cbn.
    repeat split; try discriminate; try congruence. }
  destruct (String.eqb_spec method "GET") as [Hg | Hg]; cbn [negb].
  2: { eexists. split; [reflexivity|]. cbn.
       repeat split; try discriminate; try congruence. }
  destruct (monitor_getAaveAPY_returns env p) as [a ->].
  destruct (monitor_getCompoundAPY_returns env p) as [c ->].
  cbn [await bind try_catch run]. eexists. split; [reflexivity|].
  cbn [Monitor.headers Monitor.status Monitor.sent].
  repeat split; try discriminate; try congruence.
  eexists. split; [reflexivity|].
  cbn [Monitor.value Monitor.metadata Monitor.difference Monitor.betterProtocol].
  repeat split; destruct (js_gt (to_float a) (to_float c)); discriminate.
Qed.

Lemma handler_status_witness :
  exists response,
    Monitor.handler empty_env "GET" outage_provider 0 = Returned response /\
    Monitor.status response = 200.
Proof.
  destruct (handler_status empty_env "GET" outage_provider 0)
    as (response & Hr & _ & _ & _ & _ & Hget).
  exists response. split; [exact Hr|]. apply Hget. reflexivity.
Defined.

(** X9: the endpoint's [value] and rates are the comparator's
    difference and rates for the rates the two monitor adapters return; its
    better protocol is the comparator's except where the comparator says
    ['equal'], where the endpoint says ['compound']. *)
Theorem handler_agrees_with_comparator
  (env : string -> option string) (p : provider) (now : Z)
  (rateA rateB : number) (positionA positionB : Z) (t : threshold) :
  Monitor.getAaveAPY env p = Returned rateA ->
  Monitor.getCompoundAPY env p = Returned rateB ->
  let d :=
    compareYields now (to_float rateA) (to_float rateB) positionA positionB t in
  exists response data,
    Monitor.handler env "GET" p now = Returned response /\
    Monitor.sent response = Monitor.DataBody data /\
    Monitor.value data = difference d /\
    Monitor.aaveAPY (Monitor.metadata data) = aaveAPY d /\
    Monitor.compoundAPY (Monitor.metadata data) = compoundAPY d /\
    (betterProtocol d <> equal ->
     Monitor.betterProtocol (Monitor.metadata data) = betterProtocol d) /\
    (betterProtocol d = equal ->
     Monitor.betterProtocol (Monitor.metadata data) = compound).
Proof.
  intros Ha Hc d. subst d. unfold Monitor.handler.
  cbn [String.eqb Ascii.eqb Bool.eqb negb andb].
  rewrite Ha, Hc. cbn [await bind try_catch run].
  do 2 eexists. split; [reflexivity|]. split; [reflexivity|].
  cbn [Monitor.value Monitor.metadata Monitor.betterProtocol
       Monitor.aaveAPY Monitor.compoundAPY].
  cbn [compareYields difference betterProtocol aaveAPY compoundAPY].
  repeat split.
  - destruct (js_gt (to_float rateA) (to_float rateB)); [reflexivity|].
    destruct (js_gt (to_float rateB) (to_float rateA)); [reflexivity|].
    intro H. now contradiction H.
  - destruct (js_gt (to_float rateA) (to_float rateB)); [discriminate|].
    reflexivity.
Qed.

Lemma handler_agrees_with_comparator_witness :
  exists response data,
    Monitor.handler empty_env "GET" outage_provider 0 = Returned response /\
    Monitor.sent response = Monitor.DataBody data /\
    Monitor.betterProtocol (Monitor.metadata data) = compound.
Proof.
  destruct (handler_agrees_with_comparator empty_env outage_provider 0
              (NumInt 0) (NumInt 0) 0 0 (Number 50) eq_refl eq_refl)
    as (response & data & Hr & Hs & _ & _ & _ & _ & Heq).
  exists response, data. split; [exact Hr|]. split; [exact Hs|].
  apply Heq. reflexivity.
Defined.

(** X10: when the monitor and the decision adapters are configured with
    the same contract addresses and asset, every non-zero rate a decision
    adapter returns from array-shaped reserve data is the rate the monitor
    adapter returns. *)
Theorem monitor_rates_match_decision_rates
  (env : string -> option string) (p : provider) (token : string) (r : number) :
  Monitor.AAVE_DATA_PROVIDER env = AAVE_DATA_PROVIDER_ADDRESS env ->
  Monitor.COMPOUND_COMET env = COMPOUND_COMET_ADDRESS env ->
  Monitor.USDC_ADDRESS env = token ->
  r <> NumInt 0 ->
  ((forall resp,
      getReserveData p (AAVE_DATA_PROVIDER_ADDRESS env) token = Returned resp ->
      exists items, resp = RArray items) ->
   getAaveAPY env p token = Returned r ->
   Monitor.getAaveAPY env p = Returned r) /\
  (getCompoundAPY env p = Returned r ->
   Monitor.getCompoundAPY env p = Returned r).
Proof.
  intros Hdp Hcomet Htoken Hr. split.
  - intros Harr Hres.
    destruct (getAaveAPY_cases env p token)
      as [H0 | (resp & rate & Hdata & Hsrc & Hval)].
    { rewrite H0 in Hres. apply Returned_inj in Hres; subst r. contradiction. }
    destruct (Harr resp Hdata) as [items ->].
    destruct Hsrc as [Hi | Hf]; [|discriminate Hf].
    assert (Hrate : rate <> 0).
    { intros ->. rewrite Hval in Hres. apply Returned_inj in Hres; subst r.
      apply Hr. reflexivity. }
    rewrite Hval in Hres. apply Returned_inj in Hres; subst r.
    unfold Monitor.getAaveAPY, await, try_catch, bind, run.
    rewrite Hdp, Htoken, Hdata. rewrite Hi.
    apply Z.eqb_neq in Hrate. unfold truthy_big. rewrite Hrate. reflexivity.
  - intro Hres.
    destruct (getCompoundAPY_cases env p)
      as [H0 | (u & rate & Hu & Hrate & Hval)].
    { rewrite H0 in Hres. apply Returned_inj in Hres; subst r. contradiction. }
    rewrite Hval in Hres. apply Returned_inj in Hres; subst r.
    unfold Monitor.getCompoundAPY, await, try_catch, bind, run.
    rewrite Hcomet, Hu. cbn iota beta. rewrite Hrate. reflexivity.
Qed.

Lemma monitor_rates_match_decision_rates_witness :
  Monitor.getAaveAPY shared_env (rate_provider 23000000000000000000000000 1000000000)
  = Returned (NumInt 229).
Proof.
  apply (proj1 (monitor_rates_match_decision_rates shared_env
                  (rate_provider 23000000000000000000000000 1000000000)
                  "0xaf88d065e77c8cC2239327C5EDb3A432268e5831" (NumInt 229)
                  eq_refl eq_refl eq_refl ltac:(discriminate))).
  - intros resp H. cbn [getReserveData rate_provider] in H.
    apply Returned_inj in H. subst resp. eexists. reflexivity.
  - vm_compute. reflexivity.
Defined.

(* ================================================================== *)
(** ** The job input                                                   *)
(* ================================================================== *)

(** X11: the job input is either static, with a non-empty list of
    transactions (the computed plan or the placeholder) and no script, or
    dynamic, with no transactions and the script of
    [DYNAMIC_TRANSACTIONS_SCRIPT_URL], which then starts with ['http'] and
    names neither ['localhost'] nor ['127.0.0.1']. *)
Theorem buildJobInput_mode
  (env : string -> option string) (config : YieldOptimizerConfig)
  (rebalanceTransactions : list transaction) (sufficientEth : bool) :
  let j := Job.buildJobInput env config rebalanceTransactions sufficientEth in
  (Job.argType j = Job.Static /\
   Job.dynamicArgumentsScriptUrl j = None /\
   exists txs,
     Job.safeTransactions j = Some txs /\ txs <> [] /\
     (txs = rebalanceTransactions \/
      txs = generatePlaceholderTransaction (safeAddress config)))
  \/
  (Job.argType j = Job.Dynamic /\
   Job.safeTransactions j = None /\
   exists url,
     env "DYNAMIC_TRANSACTIONS_SCRIPT_URL"%string = Some url /\
     Job.dynamicArgumentsScriptUrl j = Some url /\
     String.prefix "http" url = true /\
     includes "localhost" url = false /\
     includes "127.0.0.1" url = false).
Proof.
  intro j. subst j. unfold Job.buildJobInput.
  destruct config as [cs ct cm ci cj cu]. cbn [safeAddress].
  destruct rebalanceTransactions as [|tx txs];
    cbn [List.length Nat.eqb negb andb];
    destruct (env "DYNAMIC_TRANSACTIONS_SCRIPT_URL"%string) as [url|] eqn:Hurl;
    cbn [truthy_str env_get];
    try destruct (negb (String.eqb url "")) eqn:Ht;
    cbn [negb andb];
    try destruct (String.prefix "http" url) eqn:Hp;
    try destruct (includes "localhost" url) eqn:Hl;
    try destruct (includes "127.0.0.1" url) eqn:Hi;
    cbn [negb andb Job.argType Job.safeTransactions Job.dynamicArgumentsScriptUrl];
    try (left; repeat split;
         eexists; split; [reflexivity|]; split; [discriminate|];
         (now left) || (now right));
    right; repeat split; exists url; repeat split; assumption || reflexivity.
Qed.

(** X12: when [DYNAMIC_TRANSACTIONS_SCRIPT_URL] is set and not empty the
    computed plan is not submitted: the job carries no transactions or the
    placeholder; when it is unset or empty the job is static and carries
    the plan, or the placeholder for an empty plan. *)
Theorem buildJobInput_dynamic_url_discards_plan
  (env : string -> option string) (config : YieldOptimizerConfig)
  (rebalanceTransactions : list transaction) (sufficientEth : bool) :
  let j := Job.buildJobInput env config rebalanceTransactions sufficientEth in
  (truthy_str (env "DYNAMIC_TRANSACTIONS_SCRIPT_URL"%string) = true ->
   Job.safeTransactions j = None \/
   Job.safeTransactions j =
     Some (generatePlaceholderTransaction (safeAddress config))) /\
  (truthy_str (env "DYNAMIC_TRANSACTIONS_SCRIPT_URL"%string) = false ->
   Job.argType j = Job.Static /\
   Job.safeTransactions j =
     Some (match rebalanceTransactions with
           | [] => generatePlaceholderTransaction (safeAddress config)
           | _ => rebalanceTransactions
           end)).
Proof.
  intro j. subst j. unfold Job.buildJobInput.
  destruct config as [cs ct cm ci cj cu]. cbn [safeAddress].
  split; intros ->; cbn [negb andb];
    rewrite ?andb_false_r; cbn [negb andb].
  - destruct (String.prefix "http" _);
      [destruct (negb (includes "localhost" _) && negb (includes "127.0.0.1" _))|];
      cbn [Job.safeTransactions]; auto.
  - destruct rebalanceTransactions as [|tx txs];
      cbn [List.length Nat.eqb negb andb Job.argType Job.safeTransactions];
      split; reflexivity.
Qed.

Lemma buildJobInput_dynamic_url_discards_plan_witness :
  Job.safeTransactions
    (Job.buildJobInput dynamic_env sample_config
       (generateRebalanceTransactions dynamic_env 0 (Number 230) (Number 280)
          500000000 0 (Number 50) 1000000 0 sample_config) true)
  = None.
Proof.
  destruct (buildJobInput_dynamic_url_discards_plan dynamic_env sample_config
              (generateRebalanceTransactions dynamic_env 0 (Number 230) (Number 280)
                 500000000 0 (Number 50) 1000000 0 sample_config) true)
    as [H _].
  destruct (H eq_refl) as [Hn | Hp]; [exact Hn|].
  vm_compute in Hp. discriminate Hp.
Defined.

(* ================================================================== *)
(** ** The fork-test script                                            *)
(* ================================================================== *)

(** A plan is empty or has three transactions. *)
Lemma plan_length
  (env : string -> option string)
  (now : Z) (rateA rateB : spec_float) (positionA positionB : Z) (t : threshold)
  (aaveBalance compoundBalance : Z) (config : YieldOptimizerConfig) :
  let plan :=
    generateRebalanceTransactions env now rateA rateB positionA positionB t
      aaveBalance compoundBalance config in
  plan = [] \/ List.length plan = 3%nat.
Proof.
  intro plan. subst plan. unfold generateRebalanceTransactions.
  pose proof (shouldMove_protocols now rateA rateB positionA positionB t) as Hp.
  cbv zeta in Hp.
  set (d := compareYields now rateA rateB positionA positionB t) in *.
  unfold rebalancePlan.
  destruct (shouldMove d) eqn:Hs; cbn [negb]; [|now left].
  destruct (Hp eq_refl) as [[Hc Hb] | [Hc Hb]]; rewrite Hc, Hb;
    cbn [protocol_eqb];
    match goal with
    | |- context [?x =? 0] => destruct (x =? 0)
    end; (now left) || (right; reflexivity).
Qed.

(** X13: the fork-test script builds the plan of
    [generateRebalanceTransactions] for the same Safe and asset, and its
    job carries that plan exactly when it is not empty, never an empty
    list. *)
Theorem fork_plan_is_the_plan
  (env : string -> option string)
  (now : Z) (rateA rateB : spec_float) (positionA positionB : Z) (t : threshold)
  (aaveBalance compoundBalance : Z) (config : YieldOptimizerConfig) :
  let plan :=
    generateRebalanceTransactions env now rateA rateB positionA positionB t
      aaveBalance compoundBalance config in
  ForkTest.generateTestRebalanceTransactions env now rateA rateB
    positionA positionB t aaveBalance compoundBalance
    (safeAddress config) (tokenAddress config) = plan /\
  (ForkTest.forkSafeTransactions plan = None <-> plan = []) /\
  (forall txs, ForkTest.forkSafeTransactions plan = Some txs ->
     txs = plan /\ List.length txs = 3%nat).
Proof.
  intro plan. split; [reflexivity|].
  pose proof (plan_length env now rateA rateB positionA positionB t
                aaveBalance compoundBalance config) as Hlen.
  cbv zeta in Hlen. fold plan in Hlen.
  unfold ForkTest.forkSafeTransactions.
  destruct plan as [|tx rest]; cbn [List.length Nat.eqb negb]; split.
  - split; reflexivity.
  - intros txs H. discriminate H.
  - split; intro H; discriminate H.
  - intros txs H. apply (f_equal (fun o => match o with Some l => l | None => [] end)) in H.
    cbn in H. subst txs. split; [reflexivity|].
    destruct Hlen as [H | H]; [discriminate H | exact H].
Qed.

Lemma fork_plan_is_the_plan_witness :
  ForkTest.forkSafeTransactions
    (generateRebalanceTransactions empty_env 0 (Number 300) (Number 200) 5 7000000
       (Number 50) 5 7000000 sample_config) = None.
Proof.
  apply (proj1 (proj2 (fork_plan_is_the_plan empty_env 0 (Number 300)
                         (Number 200) 5 7000000 (Number 50) 5 7000000
                         sample_config))).
  vm_compute. reflexivity.
Defined.

(* ================================================================== *)
(** ** The balance checker                                             *)
(* ================================================================== *)

(** X14: [getWalletBalances] fails exactly when the native balance read
    or the token balance read of the wallet fails, with that error; when
    both succeed it returns them with the balances of the two protocol
    adapters, and the total is the sum of the three token balances. *)
Theorem getWalletBalances_total
  (env : string -> option string) (formatUnits : Z -> Z -> string)
  (p : provider) (r : CheckBalance.walletReads)
  (address tokenAddress : string) (tokenDecimals : Z) :
  let result :=
    CheckBalance.getWalletBalances env formatUnits p r address tokenAddress
      tokenDecimals in
  (forall e, CheckBalance.getBalance r address = Thrown e -> result = Thrown e) /\
  (forall eth e,
     CheckBalance.getBalance r address = Returned eth ->
     balanceOf p tokenAddress address = Thrown e -> result = Thrown e) /\
  (forall eth wallet,
     CheckBalance.getBalance r address = Returned eth ->
     balanceOf p tokenAddress address = Returned wallet ->
     exists b,
       result = Returned b /\
       CheckBalance.ethBalance b = eth /\
       CheckBalance.tokenInWallet b = wallet /\
       getAaveBalance env p tokenAddress address
         = Returned (CheckBalance.tokenInAave b) /\
       getCompoundBalance env p address
         = Returned (CheckBalance.tokenInCompound b) /\
       CheckBalance.totalTokenBalance b
         = wallet + CheckBalance.tokenInAave b + CheckBalance.tokenInCompound b).
Proof.
  intro result. subst result. unfold CheckBalance.getWalletBalances.
  split; [|split].
  - intros e ->. reflexivity.
  - intros eth e -> ->. reflexivity.
  - intros eth wallet -> ->.
    destruct (getAaveBalance_returns env p tokenAddress address) as [a Ha].
    destruct (getCompoundBalance_returns env p address) as [c Hc].
    rewrite Ha, Hc. cbn [await bind run]. eexists. split; [reflexivity|].
    cbn. repeat split.
Qed.

Lemma getWalletBalances_total_witness :
  exists b,
    CheckBalance.getWalletBalances empty_env (fun _ _ => "0"%string)
      (balance_provider 500000000) sample_walletReads
      (safeAddress sample_config) (tokenAddress sample_config) 6 = Returned b /\
    CheckBalance.tokenInWallet b = 500000000.
Proof.
  destruct (getWalletBalances_total empty_env (fun _ _ => "0"%string)
              (balance_provider 500000000) sample_walletReads
              (safeAddress sample_config) (tokenAddress sample_config) 6)
    as (_ & _ & H).
  destruct (H 20000000000000000 500000000 eq_refl eq_refl)
    as (b & Hb & _ & Hw & _).
  exists b. split; [exact Hb | exact Hw].
Defined.

(** X15: [checkBalances] tests [RPC_URL], [PRIVATE_KEY],
    [SAFE_WALLET_ADDRESS] and [TOKEN_ADDRESS] in this order and throws the
    message of the first one that is unset or empty; a token without
    [symbol()] or [decimals()] does not fail the report, which then names
    the token ['TOKEN']. *)
Theorem checkBalances_validation
  (env : string -> option string) (formatUnits : Z -> Z -> string)
  (walletAddress : string -> outcome string)
  (p : provider) (r : CheckBalance.walletReads) (now : Z) :
  let result := CheckBalance.checkBalances env formatUnits walletAddress p r now in
  (truthy_str (env "RPC_URL"%string) = false ->
   result = Thrown (new_Error "RPC_URL not configured in .env")) /\
  (truthy_str (env "RPC_URL"%string) = true ->
   truthy_str (env "PRIVATE_KEY"%string) = false ->
   result = Thrown (new_Error "PRIVATE_KEY not configured in .env")) /\
  (truthy_str (env "RPC_URL"%string) = true ->
   truthy_str (env "PRIVATE_KEY"%string) = true ->
   truthy_str (env "SAFE_WALLET_ADDRESS"%string) = false ->
   result = Thrown (new_Error "SAFE_WALLET_ADDRESS not configured in .env")) /\
  (truthy_str (env "RPC_URL"%string) = true ->
   truthy_str (env "PRIVATE_KEY"%string) = true ->
   truthy_str (env "SAFE_WALLET_ADDRESS"%string) = true ->
   truthy_str (env "TOKEN_ADDRESS"%string) = false ->
   result = Thrown (new_Error "TOKEN_ADDRESS not configured in .env")) /\
  (truthy_str (env "RPC_URL"%string) = true ->
   truthy_str (env "PRIVATE_KEY"%string) = true ->
   truthy_str (env "SAFE_WALLET_ADDRESS"%string) = true ->
   truthy_str (env "TOKEN_ADDRESS"%string) = true ->
   forall eoa eoaBalances safeBalances e,
     walletAddress (env_get (env "PRIVATE_KEY"%string)) = Returned eoa ->
     CheckBalance.symbol r (env_get (env "TOKEN_ADDRESS"%string)) = Thrown e ->
     CheckBalance.getWalletBalances env formatUnits p r eoa
       (env_get (env "TOKEN_ADDRESS"%string))
       (match CheckBalance.decimals r (env_get (env "TOKEN_ADDRESS"%string)) with
        | Returned d => d
        | Thrown _ => 6
        end) = Returned eoaBalances ->
     CheckBalance.getWalletBalances env formatUnits p r
       (env_get (env "SAFE_WALLET_ADDRESS"%string))
       (env_get (env "TOKEN_ADDRESS"%string))
       (match CheckBalance.decimals r (env_get (env "TOKEN_ADDRESS"%string)) with
        | Returned d => d
        | Thrown _ => 6
        end) = Returned safeBalances ->
     result =
       Returned
         {| CheckBalance.eoaAddress := eoa;
            CheckBalance.safeAddress := env_get (env "SAFE_WALLET_ADDRESS"%string);
            CheckBalance.tokenAddress := env_get (env "TOKEN_ADDRESS"%string);
            CheckBalance.tokenSymbol := "TOKEN";
            CheckBalance.eoaBalances := eoaBalances;
            CheckBalance.safeBalances := safeBalances;
            CheckBalance.timestamp := now |}).
Proof.
  intro result. subst result. unfold CheckBalance.checkBalances.
  repeat split.
  - intros ->. reflexivity.
  - intros -> ->. reflexivity.
  - intros -> -> ->. reflexivity.
  - intros -> -> -> ->. reflexivity.
  - intros -> -> -> -> eoa eoaBalances safeBalances e Hw Hs He Hsafe.
    cbn [negb]. rewrite Hw.
    unfold CheckBalance.getTokenSymbol, CheckBalance.getTokenDecimals.
    rewrite Hs.
    destruct (CheckBalance.decimals r (env_get (env "TOKEN_ADDRESS"%string)))
      as [d|e'];
      cbn [await bind run try_catch]; rewrite He, Hsafe; reflexivity.
Qed.

Lemma checkBalances_validation_witness :
  CheckBalance.checkBalances empty_env (fun _ _ => "0"%string)
    (fun _ => Returned "0x0000000000000000000000000000000000000001"%string)
    outage_provider sample_walletReads 0
  = Thrown (new_Error "RPC_URL not configured in .env").
Proof.
  apply (proj1 (checkBalances_validation empty_env (fun _ _ => "0"%string)
                  (fun _ => Returned "0x0000000000000000000000000000000000000001"%string)
                  outage_provider sample_walletReads 0)).
  reflexivity.
Defined.

(* ================================================================== *)
(** ** Enabling the Safe module                                        *)
(* ================================================================== *)

(** X16: when [_ensureModuleEnabled] does not revert the module is
    enabled on the Safe in the state it leaves; a module that is already
    enabled leaves the state as it is, without a call of [enableModule];
    and a reverting [enableModule] reverts the script. *)
Theorem ensureModuleEnabled_post
  (State : Type) (isModuleEnabled : State -> Z -> Z -> bool)
  (enableModule : State -> Z -> Z -> option State)
  (SAFE_WALLET_ADDRESS : Z) (s : State) :
  let run_script :=
    SafeScript._ensureModuleEnabled State isModuleEnabled enableModule
      SAFE_WALLET_ADDRESS s in
  (forall s', run_script = Some s' ->
     isModuleEnabled s' SAFE_WALLET_ADDRESS MultiSend.SAFE_MODULE_ADDRESS = true) /\
  (isModuleEnabled s SAFE_WALLET_ADDRESS MultiSend.SAFE_MODULE_ADDRESS = true ->
   run_script = Some s) /\
  (isModuleEnabled s SAFE_WALLET_ADDRESS MultiSend.SAFE_MODULE_ADDRESS = false ->
   enableModule s SAFE_WALLET_ADDRESS MultiSend.SAFE_MODULE_ADDRESS = None ->
   run_script = None).
Proof.
  intro run_script. subst run_script. unfold SafeScript._ensureModuleEnabled.
  split; [|split].
  - intros s'.
    destruct (isModuleEnabled s SAFE_WALLET_ADDRESS MultiSend.SAFE_MODULE_ADDRESS)
      eqn:H0; cbn [negb].
    + intro H. injection H as <-. exact H0.
    + destruct (enableModule s SAFE_WALLET_ADDRESS MultiSend.SAFE_MODULE_ADDRESS)
        as [s1|]; [|discriminate].
      destruct (isModuleEnabled s1 SAFE_WALLET_ADDRESS MultiSend.SAFE_MODULE_ADDRESS)
        eqn:H1; [|discriminate].
      intro H. injection H as <-. exact H1.
  - intros ->. reflexivity.
  - intros -> ->. reflexivity.
Qed.

Lemma ensureModuleEnabled_post_witness :
  SafeScript._ensureModuleEnabled (list Z) sample_isModuleEnabled
    sample_enableModule 1 [MultiSend.SAFE_MODULE_ADDRESS]
  = Some [MultiSend.SAFE_MODULE_ADDRESS].
Proof.
  apply (proj1 (proj2 (ensureModuleEnabled_post (list Z) sample_isModuleEnabled
                         sample_enableModule 1 [MultiSend.SAFE_MODULE_ADDRESS]))).
  vm_compute. reflexivity.
Defined.

(* ================================================================== *)
(** ** The MultiSend batch                                             *)
(* ================================================================== *)

Import MultiSend.

Lemma Z_of_byte_of_Z (z : Z) : Z_of_byte (byte_of_Z z) = z mod 256.
Proof.
  unfold Z_of_byte, byte_of_Z.
  assert (Hr : 0 <= z mod 256 < 256) by (apply Z.mod_pos_bound; lia).
  destruct (Byte.of_N (Z.to_N (z mod 256))) as [b|] eqn:E.
  - apply Byte.to_of_N in E. rewrite E. apply Z2N.id. lia.
  - apply Byte.of_N_None_iff in E. lia.
Qed.

Lemma length_be_bytes (n : nat) (v : Z) : List.length (be_bytes n v) = n.
Proof. induction n as [|n IH]; simpl; [reflexivity | now rewrite IH]. Qed.

Lemma be_fold_be_bytes (n : nat) (v acc : Z) :
  fold_left (fun a b => a * 256 + Z_of_byte b) (be_bytes n v) acc
  = acc * 256 ^ Z.of_nat n + v mod 256 ^ Z.of_nat n.
Proof.
  revert acc. induction n as [|n IH]; intro acc.
  - simpl. rewrite Z.mod_1_r. lia.
  - cbn [be_bytes fold_left]. rewrite IH, Z_of_byte_of_Z.
    rewrite Nat2Z.inj_succ, Z.pow_succ_r by lia.
    rewrite (Z.mul_comm 256 (256 ^ Z.of_nat n)).
    rewrite (Z.rem_mul_r v (256 ^ Z.of_nat n) 256) by lia.
    ring.
Qed.

Lemma be_value_be_bytes (n : nat) (v : Z) :
  be_value (be_bytes n v) = v mod 256 ^ Z.of_nat n.
Proof. unfold be_value. rewrite be_fold_be_bytes. lia. Qed.

Lemma be_value_be_bytes_small (n : nat) (v : Z) :
  0 <= v < 256 ^ Z.of_nat n -> be_value (be_bytes n v) = v.
Proof. intro H. rewrite be_value_be_bytes. now apply Z.mod_small. Qed.

Lemma encodeCall_layout (c : Call) :
  encodeCall c =
    [x00] ++ be_bytes 20 (target c) ++ be_bytes 32 (value c) ++
    be_bytes 32 (Z.of_nat (List.length (payload c))) ++ payload c.
Proof.
  unfold encodeCall, abi_encodePacked.
  cbn [map packed List.concat]. rewrite app_nil_r. reflexivity.
Qed.

Lemma encodeBatch_from (calls : list Call) (acc : bytes) :
  fold_left (fun a c => abi_encodePacked [ Bytes a; Bytes (encodeCall c) ]) calls acc
  = acc ++ List.concat (map encodeCall calls).
Proof.
  revert acc. induction calls as [|c calls IH]; intro acc.
  - simpl. now rewrite app_nil_r.
  - cbn [fold_left map List.concat]. rewrite IH.
    unfold abi_encodePacked. cbn [map packed List.concat].
    now rewrite app_nil_r, app_assoc.
Qed.

Lemma encodeBatch_concat (calls : list Call) :
  encodeBatch calls = List.concat (map encodeCall calls).
Proof. unfold encodeBatch. now rewrite encodeBatch_from. Qed.

Lemma wrapBatch_layout (selector packedBatch : bytes) :
  wrapBatch selector packedBatch =
    selector ++ be_bytes 32 32 ++
    be_bytes 32 (Z.of_nat (List.length packedBatch)) ++ packedBatch ++
    zero_padding (List.length packedBatch).
Proof.
  unfold wrapBatch, abi_encodeWithSelector, abi_encode.
  cbn [abi_heads map List.concat abi_tail List.length Nat.mul Nat.add].
  rewrite !app_nil_r. reflexivity.
Qed.

Lemma script_batch (approve_selector supply_selector multiSend_selector : bytes)
  (safe : Z) :
  _buildAaveSupplyMultiSend approve_selector supply_selector multiSend_selector safe
  = wrapBatch multiSend_selector
      (encodeBatch [ approveCall approve_selector; supplyCall supply_selector safe ]).
Proof.
  unfold _buildAaveSupplyMultiSend, wrapBatch. f_equal. f_equal. f_equal.
  rewrite encodeBatch_concat. unfold transactions, abi_encodePacked.
  cbn [map packed List.concat]. reflexivity.
Qed.

(** C5: the batch is the concatenation, in input order and without
    separators, of tag 0, the 20-byte target, the 32-byte big-endian value,
    the 32-byte big-endian payload length and the payload of each call; it
    is wrapped as the one [bytes] argument of a [multiSend] call, which the
    script sends to the batch executor. *)
Theorem encodeBatch_layout
  (approve_selector supply_selector multiSend_selector : bytes) (safe : Z)
  (calls : list Call) :
  encodeBatch calls =
    List.concat (map (fun c =>
      [x00] ++ be_bytes 20 (target c) ++ be_bytes 32 (value c) ++
      be_bytes 32 (Z.of_nat (List.length (payload c))) ++ payload c) calls) /\
  (forall n v, List.length (be_bytes n v) = n /\
               be_value (be_bytes n v) = v mod 256 ^ Z.of_nat n) /\
  (forall packedBatch,
     wrapBatch multiSend_selector packedBatch =
       multiSend_selector ++ be_bytes 32 32 ++
       be_bytes 32 (Z.of_nat (List.length packedBatch)) ++ packedBatch ++
       zero_padding (List.length packedBatch)) /\
  (let multiSendCalldata :=
     _buildAaveSupplyMultiSend approve_selector supply_selector
       multiSend_selector safe in
   multiSendCalldata =
     wrapBatch multiSend_selector
       (encodeBatch [ approveCall approve_selector; supplyCall supply_selector safe ]) /\
   mt_to (_executeViaModule multiSendCalldata) = MULTISEND_CALL_ONLY /\
   mt_data (_executeViaModule multiSendCalldata) = multiSendCalldata).
Proof.
  split; [|split; [|split]].
  - rewrite encodeBatch_concat. f_equal. apply map_ext. apply encodeCall_layout.
  - intros n v. split; [apply length_be_bytes | apply be_value_be_bytes].
  - intro packedBatch. apply wrapBatch_layout.
  - cbv zeta. split; [apply script_batch | split; reflexivity].
Qed.

Lemma firstn_exact {A} (n : nat) (l r : list A) :
  List.length l = n -> firstn n (l ++ r) = l.
Proof.
  intros <-. rewrite firstn_app, Nat.sub_diag, firstn_all. simpl.
  apply app_nil_r.
Qed.

Lemma skipn_exact {A} (n : nat) (l r : list A) :
  List.length l = n -> skipn n (l ++ r) = r.
Proof.
  intros <-. rewrite skipn_app, Nat.sub_diag, skipn_all. reflexivity.
Qed.

(** Parsing one packed call in front of [rest] yields the call and goes on
    with [rest]. *)
Lemma decodeCalls_step (fuel : nat) (c : Call) (rest : bytes) :
  wf_call c ->
  decodeCalls (S fuel) (encodeCall c ++ rest) =
    match decodeCalls fuel rest with
    | Some calls => Some (c :: calls)
    | None => None
    end.
Proof.
  intros (Ht & Hv & Hl). destruct c as [tgt val pl]. cbn [target value payload] in *.
  rewrite encodeCall_layout. cbn [target value payload].
  set (A := be_bytes 20 tgt). set (B := be_bytes 32 val).
  set (C := be_bytes 32 (Z.of_nat (List.length pl))).
  assert (HA : List.length A = 20%nat) by apply length_be_bytes.
  assert (HB : List.length B = 32%nat) by apply length_be_bytes.
  assert (HC : List.length C = 32%nat) by apply length_be_bytes.
  replace (([x00] ++ A ++ B ++ C ++ pl) ++ rest)
    with (x00 :: (A ++ B ++ C ++ pl ++ rest))
    by (cbn [app]; now rewrite <- !app_assoc).
  set (R := A ++ B ++ C ++ pl ++ rest).
  assert (H20 : firstn 20 R = A) by (apply firstn_exact; exact HA).
  assert (H52 : skipn 20 R = B ++ C ++ pl ++ rest) by (apply skipn_exact; exact HA).
  assert (HB' : firstn 32 (skipn 20 R) = B)
    by (rewrite H52; apply firstn_exact; exact HB).
  assert (H52' : skipn 52 R = C ++ pl ++ rest).
  { subst R. rewrite (app_assoc A B). apply skipn_exact.
    rewrite length_app, HA, HB. reflexivity. }
  assert (HC' : firstn 32 (skipn 52 R) = C)
    by (rewrite H52'; apply firstn_exact; exact HC).
  assert (H84 : skipn 84 R = pl ++ rest).
  { subst R. rewrite (app_assoc B C), (app_assoc A (B ++ C)). apply skipn_exact.
    rewrite !length_app, HA, HB, HC. reflexivity. }
  assert (HR : (84 <= List.length R)%nat).
  { subst R. rewrite !length_app, HA, HB, HC. lia. }
  cbn [decodeCalls].
  replace (Z_of_byte x00 =? CALL) with true by reflexivity.
  apply Nat.leb_le in HR. rewrite HR. cbn [andb].
  rewrite H20, HB', HC', H84.
  subst A B C.
  rewrite !be_value_be_bytes_small by (cbn; lia).
  rewrite Nat2Z.id.
  assert (Hle : (List.length pl <=? List.length (pl ++ rest))%nat = true)
    by (apply Nat.leb_le; rewrite length_app; lia).
  rewrite Hle.
  rewrite (skipn_exact (List.length pl) pl rest eq_refl).
  rewrite (firstn_exact (List.length pl) pl rest eq_refl).
  reflexivity.
Qed.

Lemma decodeCalls_concat (calls : list Call) (fuel : nat) :
  (List.length calls <= fuel)%nat ->
  Forall wf_call calls ->
  decodeCalls fuel (List.concat (map encodeCall calls)) = Some calls.
Proof.
  revert fuel. induction calls as [|c calls IH]; intros fuel Hf Hwf.
  - destruct fuel; reflexivity.
  - destruct fuel as [|fuel]; [simpl in Hf; lia|].
    inversion Hwf as [|? ? Hc Hcs]; subst.
    cbn [map List.concat]. rewrite decodeCalls_step by assumption.
    rewrite IH; [reflexivity | simpl in Hf; lia | assumption].
Qed.

Lemma length_encodeCall (c : Call) : (1 <= List.length (encodeCall c))%nat.
Proof. rewrite encodeCall_layout. cbn [app List.length]. lia. Qed.

Lemma length_encoded_calls (calls : list Call) :
  (List.length calls <= List.length (List.concat (map encodeCall calls)))%nat.
Proof.
  induction calls as [|c calls IH]; [reflexivity|].
  cbn [map List.concat List.length]. rewrite length_app.
  pose proof (length_encodeCall c). lia.
Qed.

(** C6: parsing the encoding of a call list gives back the list, with the
    targets, values, payloads and order it had; the empty list encodes to
    the empty byte string. *)
Theorem decodeBatch_encodeBatch (calls : list Call) :
  encodeBatch [] = [] /\
  (Forall wf_call calls -> decodeBatch (encodeBatch calls) = Some calls).
Proof.
  split; [reflexivity|].
  intro Hwf. unfold decodeBatch. rewrite encodeBatch_concat.
  apply decodeCalls_concat; [apply length_encoded_calls | assumption].
Qed.

(** The script's two calls: all fields are in range; the parser, run on
    their encoding, returns them. *)
Lemma decodeBatch_encodeBatch_witness :
  decodeBatch (encodeBatch sample_calls) = Some sample_calls.
Proof.
  apply (proj2 (decodeBatch_encodeBatch sample_calls)).
  repeat constructor; cbv; discriminate.
Defined.

Example decodeBatch_runs :
  decodeBatch (encodeBatch sample_calls) = Some sample_calls /\
  List.length (encodeBatch sample_calls) = 370%nat.
Proof. vm_compute. split; reflexivity. Qed.
